(** * forge-npm-pkg: the manifest, version and workflow generators

    A shallow embedding of the scaffolding core of forge-npm-pkg:

    - [Generators]      the package.json generator (generatePackageJson,
                        generateEntryPoints, generateScripts,
                        generateDevDependencies);
    - [VersionFetcher]  the npm version fetcher with its two fallbacks
                        (compareVersions, generateWarning,
                        getStableFallbackVersion, getLatestVersionWithFallback);
    - [NodeFetcher]     the Node.js LTS fetcher (isPastEOL, getNodeLTSVersions);
    - [ActionsFetcher]  the GitHub Actions version fetcher
                        (fetchLatestMajorVersion, fetchLatestActionVersions);
    - [Workflows]       the CI and CD workflow generators (generateCIWorkflow,
                        generateCDWorkflow), and [LegacyWorkflows] the earlier
                        CI generator with fixed versions.

    JavaScript objects used as dictionaries are finite maps ([gmap]) keyed by
    strings, numbers that the code only uses as integers are [Z], and the
    network and the clock are inputs of the functions that consult them. *)

From Stdlib Require Import ZArith String Ascii List Bool Lia DecimalString.
From Stdlib Require Import Sorting.Sorted Sorting.Permutation.
From Stdlib Require DecimalPos.
From stdpp Require Import base gmap strings list sorting.

Local Open Scope string_scope.

(** ** JavaScript built-ins used by the generators *)

Module JS.

(** The double-quote character, for template literals that contain one. *)
Definition dquote : string := String (ascii_of_nat 34) EmptyString.

(** The line feed of a template literal that spans several lines. *)
Definition nl : string := String (ascii_of_nat 10) EmptyString.

(** [String.prototype.includes]. *)
Fixpoint includes (needle hay : string) {struct hay} : bool :=
  String.prefix needle hay ||
  match hay with
  | EmptyString => false
  | String _ rest => includes needle rest
  end.

(** The character [c] occurs in [s]. *)
Fixpoint mentions (c : ascii) (s : string) : bool :=
  match s with
  | EmptyString => false
  | String x rest => Ascii.eqb x c || mentions c rest
  end.

(** [String.prototype.startsWith]. *)
Definition startsWith (s pre : string) : bool := String.prefix pre s.

(** [String.prototype.endsWith]. *)
Definition endsWith (s suf : string) : bool :=
  let n := String.length s in
  let m := String.length suf in
  (m <=? n)%nat && String.eqb (String.substring (n - m) m s) suf.

(** [String.prototype.split] with a one-character separator. *)
Fixpoint split (sep : ascii) (s : string) : list string :=
  match s with
  | EmptyString => [EmptyString]
  | String c rest =>
      if Ascii.eqb c sep then EmptyString :: split sep rest
      else match split sep rest with
           | hd :: tl => String c hd :: tl
           | [] => [String c EmptyString]
           end
  end.

(** [Array.prototype.push] of one element. *)
Definition push {A} (arr : list A) (x : A) : list A := (arr ++ [x])%list.

(** [Array.prototype.join]. *)
Definition join (sep : string) (parts : list string) : string :=
  String.concat sep parts.

(** The character class [\d]: the ten ASCII digits. *)
Definition isDigit (c : ascii) : bool :=
  (48 <=? nat_of_ascii c)%nat && (nat_of_ascii c <=? 57)%nat.

Definition digitValue (c : ascii) : Z := (Z.of_nat (nat_of_ascii c) - 48)%Z.

Fixpoint allDigits (s : string) : bool :=
  match s with
  | EmptyString => true
  | String c rest => isDigit c && allDigits rest
  end.

(** The value of a run of decimal digits, most significant first. *)
Fixpoint digitsValue (acc : Z) (s : string) : Z :=
  match s with
  | EmptyString => acc
  | String c rest => digitsValue (10 * acc + digitValue c)%Z rest
  end.

(** [Number.MAX_SAFE_INTEGER]: up to this bound every integer is a double,
    so that reading, comparing, subtracting and printing integers in the
    code is the arithmetic of [Z]. *)
Definition MAX_SAFE_INTEGER : Z := (2 ^ 53 - 1)%Z.

(** A JavaScript number as the generators use it: an integer or NaN.
    [undefined] converts to NaN wherever the code compares it. Integers are
    exact here; the code's doubles are exact up to [MAX_SAFE_INTEGER], far
    above any version component or time value. Above that bound the code
    rounds and, from 10^21 on, prints in exponent notation; the numbers that
    the registries publish stay below it ([VersionFetcher.safeVersion],
    [NodeFetcher.safeIndex], [ActionsFetcher.safeReleases]). *)
Inductive JSNum :=
  | NaN
  | Num (z : Z).

(** [Number(s)] on a dot-separated component of a version string: the
    empty string is 0, a run of decimal digits is its value (which the code
    holds without rounding up to [MAX_SAFE_INTEGER]), and the other
    components met in registry versions (such as [0-beta]) are NaN. The
    remaining numeric literals of JavaScript (signs, exponents, hexadecimal,
    surrounding white space) do not occur in a registry version. *)
Definition Number (s : string) : JSNum :=
  match s with
  | EmptyString => Num 0
  | _ => if allDigits s then Num (digitsValue 0 s) else NaN
  end.

(** [String(n)] for an integer, in decimal digits: what a template literal
    prints for a safe integer. *)
Definition showZ (z : Z) : string := NilZero.string_of_int (Z.to_int z).

Definition showNum (n : JSNum) : string :=
  match n with
  | NaN => "NaN"
  | Num z => showZ z
  end.

(** The relational operators on numbers: false as soon as a side is NaN
    or [undefined] (an index past the end of an array). *)
Definition gt (a b : option JSNum) : bool :=
  match a, b with
  | Some (Num x), Some (Num y) => (y <? x)%Z
  | _, _ => false
  end.

Definition lt (a b : option JSNum) : bool := gt b a.

Definition ge (a b : option JSNum) : bool :=
  match a, b with
  | Some (Num x), Some (Num y) => (y <=? x)%Z
  | _, _ => false
  end.

(** Strict equality of a number with an integer literal. *)
Definition isNum (a : option JSNum) (k : Z) : bool :=
  match a with
  | Some (Num x) => (x =? k)%Z
  | _ => false
  end.

(** [a - b] on numbers. *)
Definition sub (a : option JSNum) (k : Z) : JSNum :=
  match a with
  | Some (Num x) => Num (x - k)%Z
  | _ => NaN
  end.

(** [Array.prototype.sort(cmp)]: the sort is stable, and [a] stays before
    [b] when [cmp a b <= 0]. Insertion from the right keeps equal elements
    in their original order. *)
Fixpoint insertBy {A} (cmp : A -> A -> Z) (x : A) (l : list A) : list A :=
  match l with
  | [] => [x]
  | y :: rest =>
      if (cmp x y <=? 0)%Z then x :: y :: rest
      else y :: insertBy cmp x rest
  end.

Fixpoint sortBy {A} (cmp : A -> A -> Z) (l : list A) : list A :=
  match l with
  | [] => []
  | x :: rest => insertBy cmp x (sortBy cmp rest)
  end.

(** [a] may stay before [b] in an array sorted with [cmp]. *)
Definition before {A} (cmp : A -> A -> Z) (a b : A) : Prop := (cmp a b <= 0)%Z.

(** [arr.indexOf(v) === i] as a filter: keep first occurrences only. *)
Fixpoint unique (seen l : list Z) : list Z :=
  match l with
  | [] => []
  | x :: rest =>
      if existsb (Z.eqb x) seen then unique seen rest
      else x :: unique (x :: seen) rest
  end.

(** Milliseconds in a day, [1000 * 60 * 60 * 24]. *)
Definition MS_PER_DAY : Z := (1000 * 60 * 60 * 24)%Z.

(** A [Date] object: a time value in milliseconds since the epoch, or the
    invalid date that [new Date(s)] builds from an unparsable string. *)
Inductive JSDate :=
  | InvalidDate
  | DateAt (ms : Z).

(** The time value of a date-only ISO string [YYYY-MM-DD], which
    [new Date(s)] reads as midnight UTC: days since 1970-01-01 in the
    proleptic Gregorian calendar, in milliseconds. *)
Definition dateUTC (y m d : Z) : Z :=
  (let y' := if m <=? 2 then y - 1 else y in
   let era := y' / 400 in
   let yoe := y' - era * 400 in
   let mp := if 2 <? m then m - 3 else m + 9 in
   let doy := (153 * mp + 2) / 5 + d - 1 in
   let doe := yoe * 365 + yoe / 4 - yoe / 100 + doy in
   (era * 146097 + doe - 719468) * MS_PER_DAY)%Z.

(** [Math.floor((now - date.getTime()) / MS_PER_DAY)]. *)
Definition daysSince (now : Z) (d : JSDate) : JSNum :=
  match d with
  | InvalidDate => NaN
  | DateAt ms => Num ((now - ms) / MS_PER_DAY)%Z
  end.

(** What one [fetch] call followed by [response.json()] can do: reject
    (network failure), be aborted by [AbortSignal.timeout(5000)], or resolve
    with a status and a body. The body is [None] when it is not JSON of the
    expected shape, so that reading it throws. *)
Inductive FetchOutcome (A : Type) :=
  | NetworkError
  | TimedOut
  | Responded (ok : bool) (status : nat) (body : option A).

Arguments NetworkError {A}.
Arguments TimedOut {A}.
Arguments Responded {A} ok status body.

(** The body of the [try] block up to and including [response.json()]:
    [None] when an exception was thrown. *)
Definition jsonOf {A} (r : FetchOutcome A) : option A :=
  match r with
  | Responded true _ body => body
  | _ => None
  end.

(** [new Map(entries)]: a later entry replaces an earlier one with the
    same key. *)
Definition newMap {V} (entries : list (string * V)) : gmap string V :=
  fold_left (fun m kv => <[kv.1 := kv.2]> m) entries ∅.

End JS.

(** ** The project configuration *)

Inductive Language := typescript | javascript.
Inductive ModuleType := esm | commonjs | dual.
Inductive TestRunner := vitest | jest | none.

Record ProjectConfig := {
  packageName : string;
  language : Language;
  moduleType : ModuleType;
  testRunner : TestRunner;
  useLinting : bool;
  useChangesets : bool;
  initGit : bool;
  setupCI : bool;
  setupCD : bool;
  useCodecov : bool;
  useDependabot : bool
}.

Definition isTypescript (l : Language) : bool :=
  match l with typescript => true | javascript => false end.

Definition hasTests (t : TestRunner) : bool :=
  match t with none => false | _ => true end.

(** The configuration of the repository's package.json tests. *)
Definition baseConfig : ProjectConfig :=
  {| packageName := "test-package";
     language := typescript;
     moduleType := esm;
     testRunner := vitest;
     useLinting := true;
     useChangesets := false;
     initGit := true;
     setupCI := false;
     setupCD := false;
     useCodecov := false;
     useDependabot := false |}.

(** The configuration of the repository's workflow test with Codecov. *)
Definition codecovConfig : ProjectConfig :=
  {| packageName := "test-package";
     language := typescript;
     moduleType := esm;
     testRunner := vitest;
     useLinting := true;
     useChangesets := false;
     initGit := false;
     setupCI := true;
     setupCD := false;
     useCodecov := true;
     useDependabot := false |}.

(** The scenario of a TypeScript dual package with Vitest and linting and
    without Codecov. *)
Definition dualConfig : ProjectConfig :=
  {| packageName := "test-package";
     language := typescript;
     moduleType := dual;
     testRunner := vitest;
     useLinting := true;
     useChangesets := false;
     initGit := true;
     setupCI := true;
     setupCD := false;
     useCodecov := false;
     useDependabot := false |}.

(** ** generators.ts: package.json *)

Module Generators.

(** The target of an [exports] entry: a path, or an object of conditions. *)
Inductive ExportTarget :=
  | TargetPath (p : string)
  | TargetConditions (c : gmap string string).

(** The values that occur in the generated package.json. *)
Inductive Field :=
  | FString (s : string)
  | FStrings (l : list string)
  | FStringMap (m : gmap string string)
  | FExports (e : gmap string ExportTarget).

Definition generateEntryPoints (config : ProjectConfig) : gmap string Field :=
  let entryPoints : gmap string Field := ∅ in
  if negb (isTypescript (language config)) then
    let entryPoints := <["main" := FString "./src/index.js"]> entryPoints in
    let entryPoints :=
      match moduleType config with
      | esm | dual => <["module" := FString "./src/index.js"]> entryPoints
      | commonjs => entryPoints
      end in
    <["exports" := FExports {[ "." := TargetPath "./src/index.js" ]}]> entryPoints
  else
    match moduleType config with
    | esm =>
        let entryPoints := <["main" := FString "./dist/index.js"]> entryPoints in
        let entryPoints := <["types" := FString "./dist/index.d.ts"]> entryPoints in
        <["exports" := FExports {[ "." := TargetConditions
             (<["import" := "./dist/index.js"]>
               (<["types" := "./dist/index.d.ts"]> ∅)) ]}]> entryPoints
    | commonjs =>
        let entryPoints := <["main" := FString "./dist/index.js"]> entryPoints in
        let entryPoints := <["types" := FString "./dist/index.d.ts"]> entryPoints in
        <["exports" := FExports {[ "." := TargetConditions
             (<["require" := "./dist/index.js"]>
               (<["types" := "./dist/index.d.ts"]> ∅)) ]}]> entryPoints
    | dual =>
        let entryPoints := <["main" := FString "./dist/index.js"]> entryPoints in
        let entryPoints := <["module" := FString "./dist/index.mjs"]> entryPoints in
        let entryPoints := <["types" := FString "./dist/index.d.ts"]> entryPoints in
        <["exports" := FExports {[ "." := TargetConditions
             (<["require" := "./dist/index.js"]>
               (<["import" := "./dist/index.mjs"]>
                 (<["types" := "./dist/index.d.ts"]> ∅))) ]}]> entryPoints
    end.

Definition generateScripts (config : ProjectConfig) : gmap string string :=
  let scripts : gmap string string := ∅ in
  let scripts :=
    if isTypescript (language config) then
      <["typecheck" := "tsc --noEmit"]> (<["build" := "tsup"]> scripts)
    else scripts in
  let scripts :=
    match testRunner config with
    | vitest => <["test:watch" := "vitest"]> (<["test" := "vitest run"]> scripts)
    | jest => <["test:watch" := "jest --watch"]> (<["test" := "jest"]> scripts)
    | none => scripts
    end in
  let scripts :=
    if useLinting config then
      let ext := if isTypescript (language config) then "ts" else "js" in
      let scripts := <["lint" := "eslint . --ext ." ++ ext]> scripts in
      let scripts := <["lint:fix" := "eslint . --ext ." ++ ext ++ " --fix"]> scripts in
      let scripts :=
        <["format" := "prettier --write " ++ JS.dquote
                       ++ "src/**/*.{ts,js,json,md}" ++ JS.dquote]> scripts in
      <["format:check" := "prettier --check " ++ JS.dquote
                       ++ "src/**/*.{ts,js,json,md}" ++ JS.dquote]> scripts
    else scripts in
  let scripts :=
    if isTypescript (language config) then
      <["check:exports" := "attw --pack"]> scripts
    else scripts in
  let scripts :=
    if isTypescript (language config) then
      <["prepublishOnly" := "npm run build"]> scripts
    else scripts in
  scripts.

Definition generateDevDependencies (config : ProjectConfig) : gmap string string :=
  let deps : gmap string string := ∅ in
  let deps :=
    if isTypescript (language config) then
      <["@arethetypeswrong/cli" := "^0.15.0"]>
        (<["@types/node" := "^20.11.0"]>
          (<["tsup" := "^8.0.1"]>
            (<["typescript" := "^5.3.3"]> deps)))
    else deps in
  let deps :=
    match testRunner config with
    | vitest => <["vitest" := "^1.2.0"]> deps
    | jest =>
        let deps := <["jest" := "^29.7.0"]> deps in
        if isTypescript (language config) then
          <["@types/jest" := "^29.5.11"]> (<["ts-jest" := "^29.1.1"]> deps)
        else deps
    | none => deps
    end in
  let deps :=
    if useLinting config then
      let deps :=
        if isTypescript (language config) then
          <["@typescript-eslint/parser" := "^6.19.0"]>
            (<["@typescript-eslint/eslint-plugin" := "^6.19.0"]> deps)
        else deps in
      <["eslint-config-prettier" := "^9.1.0"]>
        (<["prettier" := "^3.2.4"]>
          (<["eslint" := "^8.56.0"]> deps))
    else deps in
  let deps :=
    if useChangesets config then <["@changesets/cli" := "^2.27.1"]> deps
    else deps in
  deps.

(** [pkg.scripts[name] = command] on the scripts object held by [pkg]. *)
Definition setScript (name command : string) (f : Field) : Field :=
  match f with
  | FStringMap scripts => FStringMap (<[name := command]> scripts)
  | other => other
  end.

(** The object literal of [generatePackageJson]; the spread of the entry
    points overrides the keys written before it, and the release script is
    added to the scripts object afterwards. *)
Definition generatePackageJson (config : ProjectConfig) : gmap string Field :=
  let pkg : gmap string Field := ∅ in
  let pkg := <["name" := FString (packageName config)]> pkg in
  let pkg := <["version" := FString "0.1.0"]> pkg in
  let pkg := <["description" := FString "A new npm package"]> pkg in
  let pkg :=
    <["type" := FString (match moduleType config with
                         | commonjs => "commonjs"
                         | _ => "module"
                         end)]> pkg in
  let pkg := generateEntryPoints config ∪ pkg in
  let pkg :=
    <["files" := FStrings (if isTypescript (language config)
                           then ["dist"] else ["src"])]> pkg in
  let pkg := <["scripts" := FStringMap (generateScripts config)]> pkg in
  let pkg := <["keywords" := FStrings []]> pkg in
  let pkg := <["author" := FString EmptyString]> pkg in
  let pkg := <["license" := FString "MIT"]> pkg in
  let pkg :=
    <["devDependencies" := FStringMap (generateDevDependencies config)]> pkg in
  if useChangesets config then
    alter (setScript "release" "changeset publish") "scripts" pkg
  else pkg.

(** The conditions object under [exports["."]], when it is one. *)
Definition exportConditions (pkg : gmap string Field) : option (gmap string string) :=
  match pkg !! "exports" with
  | Some (FExports e) =>
      match e !! "." with
      | Some (TargetConditions c) => Some c
      | _ => None
      end
  | _ => None
  end.

(** The target under [exports["."]]. *)
Definition exportRoot (pkg : gmap string Field) : option ExportTarget :=
  match pkg !! "exports" with
  | Some (FExports e) => e !! "."
  | _ => None
  end.

(** The values of [compilerOptions] in the generated tsconfig.json. *)
Inductive TsValue :=
  | TsString (s : string)
  | TsBool (b : bool)
  | TsStrings (l : list string).

Record TsConfig := {
  compilerOptions : gmap string TsValue;
  include : list string;
  exclude : list string
}.

Definition generateTsConfig (config : ProjectConfig) : TsConfig :=
  let moduleResolution :=
    match moduleType config with commonjs => "node" | _ => "bundler" end in
  let module :=
    match moduleType config with commonjs => "CommonJS" | _ => "ESNext" end in
  {| compilerOptions :=
       list_to_map
         [ ("target", TsString "ES2020");
           ("module", TsString module);
           ("lib", TsStrings ["ES2020"]);
           ("moduleResolution", TsString moduleResolution);
           ("outDir", TsString "./dist");
           ("rootDir", TsString "./src");
           ("strict", TsBool true);
           ("esModuleInterop", TsBool true);
           ("skipLibCheck", TsBool true);
           ("forceConsistentCasingInFileNames", TsBool true);
           ("declaration", TsBool true);
           ("declarationMap", TsBool true);
           ("sourceMap", TsBool true);
           ("noUnusedLocals", TsBool true);
           ("noUnusedParameters", TsBool true);
           ("noImplicitReturns", TsBool true);
           ("noFallthroughCasesInSwitch", TsBool true);
           ("resolveJsonModule", TsBool true);
           ("allowSyntheticDefaultImports", TsBool true) ];
     include := ["src/**/*"];
     exclude := ["node_modules"; "dist"; "**/*.test.ts"; "**/*.spec.ts"] |}.

(** The [formats] array of [generateTsupConfig]; each element carries its
    quotes. *)
Definition tsupFormats (config : ProjectConfig) : list string :=
  match moduleType config with
  | esm => ["'esm'"]
  | commonjs => ["'cjs'"]
  | dual => ["'cjs'"; "'esm'"]
  end.

Definition generateTsupConfig (config : ProjectConfig) : string :=
  "import { defineConfig } from 'tsup';" ++ JS.nl ++
  JS.nl ++
  "export default defineConfig({" ++ JS.nl ++
  "  entry: ['src/index.ts']," ++ JS.nl ++
  "  format: [" ++ JS.join ", " (tsupFormats config) ++ "]," ++ JS.nl ++
  "  dts: true, // Generate declaration files" ++ JS.nl ++
  "  splitting: false," ++ JS.nl ++
  "  sourcemap: true," ++ JS.nl ++
  "  clean: true," ++ JS.nl ++
  "  treeshake: true," ++ JS.nl ++
  "});" ++ JS.nl.

Record EslintConfig := {
  env : gmap string bool;
  extends : list string;
  parserOptions : gmap string string;
  rules : gmap string string;
  parser : option string;
  plugins : option (list string)
}.

Definition generateEslintConfig (config : ProjectConfig) : EslintConfig :=
  let eslintConfig :=
    {| env := <["es2021" := true]> (<["node" := true]> ∅);
       extends := ["eslint:recommended"];
       parserOptions :=
         <["sourceType" := "module"]> (<["ecmaVersion" := "latest"]> ∅);
       rules := ∅;
       parser := None;
       plugins := None |} in
  if isTypescript (language config) then
    {| env := env eslintConfig;
       extends :=
         JS.push (JS.push (extends eslintConfig)
                    "plugin:@typescript-eslint/recommended") "prettier";
       parserOptions := parserOptions eslintConfig;
       rules := rules eslintConfig;
       parser := Some "@typescript-eslint/parser";
       plugins := Some ["@typescript-eslint"] |}
  else
    {| env := env eslintConfig;
       extends := JS.push (extends eslintConfig) "prettier";
       parserOptions := parserOptions eslintConfig;
       rules := rules eslintConfig;
       parser := parser eslintConfig;
       plugins := plugins eslintConfig |}.

(** The scripts object of a manifest. *)
Definition scriptsOf (pkg : gmap string Field) : gmap string string :=
  match pkg !! "scripts" with
  | Some (FStringMap scripts) => scripts
  | _ => ∅
  end.

(** The program that a script command starts: its first word. *)
Definition commandTool (command : string) : string :=
  hd EmptyString (JS.split " " command).

(** The npm package that installs each program the scripts start;
    [npm] itself comes with Node.js. *)
Definition toolPackage (tool : string) : option string :=
  if String.eqb tool "tsup" then Some "tsup"
  else if String.eqb tool "tsc" then Some "typescript"
  else if String.eqb tool "vitest" then Some "vitest"
  else if String.eqb tool "jest" then Some "jest"
  else if String.eqb tool "eslint" then Some "eslint"
  else if String.eqb tool "prettier" then Some "prettier"
  else if String.eqb tool "attw" then Some "@arethetypeswrong/cli"
  else if String.eqb tool "changeset" then Some "@changesets/cli"
  else None.

(** The file paths that the entry-point fields of a manifest name. *)
Definition entryPaths (pkg : gmap string Field) : list string :=
  let field name :=
    match pkg !! name with
    | Some (FString path) => [path]
    | _ => []
    end in
  (field "main" ++ field "module" ++ field "types" ++
   match exportRoot pkg with
   | Some (TargetPath path) => [path]
   | Some (TargetConditions conditions) => (map_to_list conditions).*2
   | None => []
   end)%list.

(** The keys that [exports["."]] is expected to have for a TypeScript
    package of each module format. *)
Definition expectedConditions (m : ModuleType) : gset string :=
  match m with
  | esm => {[ "types"; "import" ]}
  | commonjs => {[ "types"; "require" ]}
  | dual => {[ "types"; "import"; "require" ]}
  end.

End Generators.

(** ** versionFetcher.ts: npm versions with fallbacks

    [now] is the reading of [Date.now()]; the clock does not advance by a
    day within one call, so one reading serves the whole call. *)

Module VersionFetcher.

Record VersionResult := {
  version : string;
  warning : option string;
  usedFallback : option bool
}.

(** The registry document. [data_version] is [None] when [data.version] is
    not a string; [data_time] holds the dates built from [data.time] (a
    missing or empty entry has no binding); [data_versions] lists
    [Object.keys(data.versions || {})] in property order. *)
Record NpmPackageData := {
  data_version : option string;
  data_time : gmap string JS.JSDate;
  data_versions : list string
}.

Definition partsOf (v : string) : list JS.JSNum :=
  map JS.Number (JS.split "." v).

(** One round of the loop of [compareVersions]; [next] is the value of the
    remaining rounds. *)
Definition compareAt (aParts bParts : list JS.JSNum) (i : nat) (next : Z) : Z :=
  if JS.gt (aParts !! i) (bParts !! i) then 1
  else if JS.lt (aParts !! i) (bParts !! i) then -1
  else next.

Definition compareVersions (a b : string) : Z :=
  let aParts := partsOf a in
  let bParts := partsOf b in
  compareAt aParts bParts 0
    (compareAt aParts bParts 1
      (compareAt aParts bParts 2 0)).

(** The opening of both warnings:
    [pkg@version (N day(s) old)] after the warning sign. *)
Definition warningHead (pkg version : string) (daysOld : JS.JSNum) : string :=
  "⚠️  " ++ pkg ++ "@" ++ version ++ " (" ++ JS.showNum daysOld ++ " day"
    ++ (if JS.isNum (Some daysOld) 1 then EmptyString else "s") ++ " old)" ++ JS.nl.

Definition generateWarning (pkg version : string) (daysOld : JS.JSNum) : option string :=
  let parts := partsOf version in
  let major := parts !! 0%nat in
  let minor := parts !! 1%nat in
  if JS.isNum minor 0 && JS.lt (Some daysOld) (Some (JS.Num 30)) then
    let prevMajor := JS.sub major 1 in
    Some (warningHead pkg version daysOld
          ++ "   New major version - may contain breaking changes." ++ JS.nl
          ++ "   If issues occur, downgrade: npm install " ++ pkg ++ "@"
          ++ JS.showNum prevMajor)
  else if JS.isNum minor 1 && JS.lt (Some daysOld) (Some (JS.Num 14)) then
    Some (warningHead pkg version daysOld
          ++ "   Recently released - may have early bugs.")
  else None.

(** The regular expression [/^\d+\.\d+\.\d+$/], read left to right: each
    step consumes what it matches and returns the rest of the input. *)
Fixpoint skipDigits (s : string) : string :=
  match s with
  | String c rest => if JS.isDigit c then skipDigits rest else s
  | EmptyString => s
  end.

Definition digits1 (s : string) : option string :=
  match s with
  | String c rest => if JS.isDigit c then Some (skipDigits rest) else None
  | EmptyString => None
  end.

Definition dot (s : string) : option string :=
  match s with
  | String c rest => if Ascii.eqb c "." then Some rest else None
  | EmptyString => None
  end.

Definition semverRest (v : string) : option string :=
  s1 ← digits1 v;
  s2 ← dot s1;
  s3 ← digits1 s2;
  s4 ← dot s3;
  digits1 s4.

Definition semverTest (v : string) : bool :=
  match semverRest v with
  | Some EmptyString => true
  | _ => false
  end.

(** [new Date(data.time?.[version] || Date.now())]. *)
Definition publishedAt (now : Z) (data : NpmPackageData) (v : string) : JS.JSDate :=
  default (JS.DateAt now) (data_time data !! v).

Definition daysOldOf (now : Z) (data : NpmPackageData) (v : string) : JS.JSNum :=
  JS.daysSince now (publishedAt now data v).

(** [allVersions.filter(..).filter(..).sort(compareVersions).reverse()]. *)
Definition stableVersions (data : NpmPackageData) : list string :=
  rev (JS.sortBy compareVersions
        (List.filter semverTest
          (List.filter (fun v => negb (JS.includes "-" v)) (data_versions data)))).

(** The [for] loop over the stable versions: the first one that is at
    least 30 days old, with its age. *)
Fixpoint firstOldEnough (now : Z) (data : NpmPackageData) (vs : list string)
  : option (string * JS.JSNum) :=
  match vs with
  | [] => None
  | v :: rest =>
      let daysOld := daysOldOf now data v in
      if JS.ge (Some daysOld) (Some (JS.Num 30)) then Some (v, daysOld)
      else firstOldEnough now data rest
  end.

(** The [try] block of [getStableFallbackVersion]; [None] when it throws. *)
Definition tryStableFallback (packageName : string) (now : Z)
    (r : JS.FetchOutcome NpmPackageData) : option VersionResult :=
  data ← JS.jsonOf r;
  match stableVersions data with
  | [] => None
  | latestStable :: _ =>
      match firstOldEnough now data (stableVersions data) with
      | Some (v, daysOld) =>
          Some {| version := "^" ++ v;
                  usedFallback := Some true;
                  warning := Some ("ℹ️  Using stable fallback: " ++ packageName
                                   ++ "@" ++ v ++ " (" ++ JS.showNum daysOld
                                   ++ " days old)") |}
      | None =>
          Some {| version := "^" ++ latestStable;
                  usedFallback := Some true;
                  warning := Some ("ℹ️  Using fallback: " ++ packageName
                                   ++ "@" ++ latestStable) |}
      end
  end.

(** The [catch] block of [getStableFallbackVersion]. *)
Definition lastResort (packageName : string) : VersionResult :=
  {| version := "latest";
     usedFallback := Some true;
     warning := Some ("⚠️  Could not fetch " ++ packageName ++ " versions, using "
                      ++ JS.dquote ++ "latest" ++ JS.dquote) |}.

Definition getStableFallbackVersion (packageName : string) (now : Z)
    (r : JS.FetchOutcome NpmPackageData) : VersionResult :=
  default (lastResort packageName) (tryStableFallback packageName now r).

(** The [try] block of [getLatestVersionWithFallback]; [None] when it
    throws, which includes [version.split] on a version that is no string. *)
Definition tryLatest (packageName : string) (now : Z)
    (r : JS.FetchOutcome NpmPackageData) : option VersionResult :=
  data ← JS.jsonOf r;
  v ← data_version data;
  Some {| version := "^" ++ v;
          warning := generateWarning packageName v (daysOldOf now data v);
          usedFallback := None |}.

(** [latest] answers the request for [/<package>/latest], and [full] the
    request for [/<package>], which is only sent when the first fails. *)
Definition getLatestVersionWithFallback (packageName : string) (now : Z)
    (latest full : JS.FetchOutcome NpmPackageData) : VersionResult :=
  match tryLatest packageName now latest with
  | Some result => result
  | None => getStableFallbackVersion packageName now full
  end.

(** A caret followed by three dot-separated runs of digits. *)
Definition isCaretSemver (s : string) : bool :=
  match s with
  | String c rest => Ascii.eqb c "^" && semverTest rest
  | EmptyString => false
  end.

(** The numeric key of a stable version: major, minor, patch. *)
Definition versionKey (v : string) : option (Z * Z * Z) :=
  match partsOf v with
  | [JS.Num a; JS.Num b; JS.Num c] => Some (a, b, c)
  | _ => None
  end.

(** Major, then minor, then patch, each compared as a number. *)
Definition keyLe (x y : Z * Z * Z) : Prop :=
  let '(a, b, c) := x in
  let '(a', b', c') := y in
  (a < a' \/ (a = a' /\ (b < b' \/ (b = b' /\ c <= c'))))%Z.

Definition newerOrEqual (x y : string) : Prop :=
  match versionKey x, versionKey y with
  | Some kx, Some ky => keyLe ky kx
  | _, _ => False
  end.

Definition isStable (v : string) : Prop := semverTest v = true.

(** A version as the registry lists it: its numeric identifiers are at most
    [Number.MAX_SAFE_INTEGER] (npm's semver refuses larger ones), so that
    [Number] reads them without rounding. *)
Definition safeVersion (v : string) : Prop :=
  forall a b c, versionKey v = Some (a, b, c) ->
    (a <= JS.MAX_SAFE_INTEGER /\ b <= JS.MAX_SAFE_INTEGER
     /\ c <= JS.MAX_SAFE_INTEGER)%Z.

(** A version is old enough for the fallback at 30 whole days. *)
Definition oldEnough (now : Z) (data : NpmPackageData) (v : string) : bool :=
  JS.ge (Some (daysOldOf now data v)) (Some (JS.Num 30)).

(** [registry name] is what the two requests for that package do: the
    one for [/<name>/latest] and the one for [/<name>]. *)
Definition fetchLatestVersions (now : Z)
    (registry : string -> JS.FetchOutcome NpmPackageData * JS.FetchOutcome NpmPackageData)
    (packageNames : list string) : gmap string VersionResult :=
  JS.newMap
    (map (fun name =>
            (name,
             getLatestVersionWithFallback name now
               (registry name).1 (registry name).2))
         packageNames).

(** A registry document read on 2025-01-15: [3.0.0] is 5 days old, [2.10.0]
    is 45 days old and [2.9.1] older still; the pre-release is skipped. *)
Definition sampleDocument : NpmPackageData :=
  {| data_version := Some "3.0.0";
     data_time :=
       {[ "2.9.1" := JS.DateAt (JS.dateUTC 2024 6 1);
          "2.10.0" := JS.DateAt (JS.dateUTC 2024 12 1);
          "3.0.0-rc.1" := JS.DateAt (JS.dateUTC 2024 12 20);
          "3.0.0" := JS.DateAt (JS.dateUTC 2025 1 10) ]};
     data_versions := ["2.9.1"; "2.10.0"; "3.0.0-rc.1"; "3.0.0"] |}.

End VersionFetcher.

(** ** nodeFetcher.ts: the Node.js LTS matrix

    The [console.warn] of the fallback path writes to the terminal and
    returns nothing; it is left out. *)

Module NodeFetcher.

Record NodeVersionConfig := {
  minimum : Z;
  engines : string;
  ciMatrix : list Z;
  latestLTS : Z
}.

(** An entry of [https://nodejs.org/dist/index.json]; [lts] is [None] for
    [false] and the codename otherwise. *)
Record NodeDistVersion := {
  version : string;
  date : string;
  lts : option string
}.

Definition FALLBACK_NODE_CONFIG : NodeVersionConfig :=
  {| minimum := 20;
     engines := ">=20.0.0";
     ciMatrix := [20; 22]%Z;
     latestLTS := 22 |}.

Definition EOL_DATES : gmap Z Z :=
  list_to_map
    [ (16, JS.dateUTC 2023 9 11);
      (18, JS.dateUTC 2025 4 30);
      (20, JS.dateUTC 2026 4 30);
      (22, JS.dateUTC 2027 4 30);
      (24, JS.dateUTC 2028 4 30);
      (26, JS.dateUTC 2029 4 30) ]%Z.

Definition isPastEOL (now : Z) (majorVersion : Z) : bool :=
  match EOL_DATES !! majorVersion with
  | None => false
  | Some eolDate => (eolDate <? now)%Z
  end.

(** The leading run of digits of a string. *)
Fixpoint takeDigits (s : string) : string :=
  match s with
  | String c rest => if JS.isDigit c then String c (takeDigits rest) else EmptyString
  | EmptyString => EmptyString
  end.

(** [parseInt(v.version.match(/^v(\d+)/)?.[1] || '0')]: the value of the
    digits, which [parseInt] returns without rounding up to
    [Number.MAX_SAFE_INTEGER]. *)
Definition majorOf (v : string) : Z :=
  match v with
  | String c rest =>
      if Ascii.eqb c "v" then
        match takeDigits rest with
        | EmptyString => 0
        | digits => JS.digitsValue 0 digits
        end
      else 0
  | EmptyString => 0
  end.

(** The chain of [filter], [map], [filter], [filter] and [sort] that builds
    [ltsVersions]. *)
Definition ltsVersions (now : Z) (versions : list NodeDistVersion) : list Z :=
  JS.sortBy (fun a b => b - a)%Z
    (JS.unique []
      (List.filter (fun v => (0 <? v)%Z && negb (isPastEOL now v))
        (map (fun v => majorOf (version v))
          (List.filter (fun v => bool_decide (lts v ≠ None)) versions)))).

Definition getNodeLTSVersions (now : Z)
    (r : JS.FetchOutcome (list NodeDistVersion)) : NodeVersionConfig :=
  match JS.jsonOf r with
  | None => FALLBACK_NODE_CONFIG
  | Some versions =>
      match ltsVersions now versions with
      | [] => FALLBACK_NODE_CONFIG
      | latest :: _ =>
          let matrix := take 2 (ltsVersions now versions) in
          let minimum :=
            if (2 <=? length matrix)%nat then default latest (matrix !! 1%nat)
            else latest in
          {| minimum := minimum;
             engines := ">=" ++ JS.showZ minimum ++ ".0.0";
             ciMatrix := matrix;
             latestLTS := latest |}
      end
  end.

(** What a workflow needs of a configuration: a matrix of one or two
    distinct majors that holds [latestLTS] exactly once and [minimum], with
    [0 < minimum <= latestLTS] bounding the matrix, and the [engines] range
    built from [minimum]. *)
Definition wellFormed (config : NodeVersionConfig) : Prop :=
  (1 <= length (ciMatrix config) <= 2)%nat /\
  NoDup (ciMatrix config) /\
  In (minimum config) (ciMatrix config) /\
  count_occ Z.eq_dec (ciMatrix config) (latestLTS config) = 1%nat /\
  (0 < minimum config <= latestLTS config)%Z /\
  (forall m, In m (ciMatrix config) -> (minimum config <= m <= latestLTS config)%Z) /\
  engines config = ">=" ++ JS.showZ (minimum config) ++ ".0.0".

(** An index whose major numbers are safe integers, as those of every
    Node.js release are. *)
Definition safeIndex (versions : list NodeDistVersion) : Prop :=
  Forall (fun v => (majorOf (version v) <= JS.MAX_SAFE_INTEGER)%Z) versions.

(** A release index with the LTS lines 16, 18, 20 and 22 and one release
    that is not LTS, read on 2025-01-15, when only 16 is past its end of
    life. *)
Definition sampleIndex : list NodeDistVersion :=
  [ {| version := "v23.6.0"; date := "2025-01-07"; lts := None |};
    {| version := "v22.13.0"; date := "2025-01-07"; lts := Some "Jod" |};
    {| version := "v22.12.0"; date := "2024-12-03"; lts := Some "Jod" |};
    {| version := "v20.18.1"; date := "2024-11-20"; lts := Some "Iron" |};
    {| version := "v18.20.5"; date := "2024-11-12"; lts := Some "Hydrogen" |};
    {| version := "v16.20.2"; date := "2023-08-08"; lts := Some "Gallium" |} ].

Definition sampleNow : Z := JS.dateUTC 2025 1 15.

End NodeFetcher.

(** ** actionsFetcher.ts: the result of an action version lookup *)

Module ActionsFetcher.

Record ActionVersionResult := {
  version : string;
  warning : option string;
  usedFallback : option bool
}.

(** The tags that [fetchLatestMajorVersion] returns, [v] followed by the
    major number: the pattern [/^v\d+$/] of the repository's tests. *)
Definition isMajorTag (v : string) : bool :=
  match v with
  | String c digits =>
      Ascii.eqb c "v" && JS.allDigits digits
      && negb (String.eqb digits EmptyString)
  | EmptyString => false
  end.

Record GitHubRelease := {
  tag_name : string;
  published_at : string;
  prerelease : bool;
  draft : bool
}.

(** [tag.match(/^v?(\d+)/)] and [parseInt(match[1], 10)]: the run of digits
    at the start of the tag, after an optional [v]; [None] for [null]. The
    value is the one [parseInt] returns up to [Number.MAX_SAFE_INTEGER]. *)
Definition extractMajorVersion (tag : string) : option Z :=
  let rest :=
    match tag with
    | String c r => if Ascii.eqb c "v" then r else tag
    | EmptyString => tag
    end in
  match NodeFetcher.takeDigits rest with
  | EmptyString => None
  | digits => Some (JS.digitsValue 0 digits)
  end.

Definition isStableRelease (r : GitHubRelease) : bool :=
  negb (draft r) && negb (prerelease r).

(** Releases whose major numbers are safe integers, as the tags of every
    published action are. *)
Definition safeReleases (releases : list GitHubRelease) : Prop :=
  forall release m,
    In release releases -> isStableRelease release = true ->
    extractMajorVersion (tag_name release) = Some m ->
    (m <= JS.MAX_SAFE_INTEGER)%Z.

(** One round of the loop that looks for the highest major version. *)
Definition raiseMajor (highestMajor : Z) (release : GitHubRelease) : Z :=
  match extractMajorVersion (tag_name release) with
  | Some major => if (highestMajor <? major)%Z then major else highestMajor
  | None => highestMajor
  end.

Definition highestMajorOf (stableReleases : list GitHubRelease) : Z :=
  fold_left raiseMajor stableReleases 0%Z.

(** The [try] block of [fetchLatestMajorVersion]; [None] when it throws. *)
Definition tryLatestMajor (r : JS.FetchOutcome (list GitHubRelease))
  : option ActionVersionResult :=
  releases ← JS.jsonOf r;
  let stableReleases := List.filter isStableRelease releases in
  match stableReleases with
  | [] => None
  | _ =>
      let highestMajor := highestMajorOf stableReleases in
      if (highestMajor =? 0)%Z then None
      else Some {| version := "v" ++ JS.showZ highestMajor;
                   warning := None;
                   usedFallback := None |}
  end.

(** The [catch] block of [fetchLatestMajorVersion]. *)
Definition conservativeDefault (owner repo : string) : ActionVersionResult :=
  {| version := "v5";
     usedFallback := Some true;
     warning := Some ("⚠️  Could not fetch " ++ owner ++ "/" ++ repo
                      ++ " version, using v5") |}.

Definition fetchLatestMajorVersion (owner repo : string)
    (r : JS.FetchOutcome (list GitHubRelease)) : ActionVersionResult :=
  default (conservativeDefault owner repo) (tryLatestMajor r).

Record ActionConfig := {
  owner : string;
  repo : string;
  key : string
}.

Definition SUPPORTED_ACTIONS : list ActionConfig :=
  [ {| owner := "actions"; repo := "checkout"; key := "actions/checkout" |};
    {| owner := "actions"; repo := "setup-node"; key := "actions/setup-node" |};
    {| owner := "codecov"; repo := "codecov-action"; key := "codecov/codecov-action" |};
    {| owner := "dependabot"; repo := "fetch-metadata";
       key := "dependabot/fetch-metadata" |} ].

(** [github owner repo] is what the releases request for that repository
    does. *)
Definition fetchLatestActionVersions
    (github : string -> string -> JS.FetchOutcome (list GitHubRelease))
  : gmap string ActionVersionResult :=
  JS.newMap
    (map (fun action =>
            (key action,
             fetchLatestMajorVersion (owner action) (repo action)
               (github (owner action) (repo action))))
         SUPPORTED_ACTIONS).

Definition FALLBACK_VERSIONS : gmap string string :=
  <["dependabot/fetch-metadata" := "v2"]>
    (<["codecov/codecov-action" := "v5"]>
      (<["actions/setup-node" := "v6"]>
        (<["actions/checkout" := "v5"]> ∅))).

End ActionsFetcher.

(** ** generators/workflows.ts: the CI workflow *)

Module Workflows.

(** [actionVersions.get(key)?.version || fallback]. *)
Definition actionVersion (actionVersions : gmap string ActionsFetcher.ActionVersionResult)
    (key fallback : string) : string :=
  match actionVersions !! key with
  | Some r =>
      match ActionsFetcher.version r with
      | EmptyString => fallback
      | v => v
      end
  | None => fallback
  end.

Definition checkoutStep (checkoutVersion : string) : string :=
  "      - name: Checkout code" ++ JS.nl ++
  "        uses: actions/checkout@" ++ checkoutVersion.

Definition setupNodeStep (setupNodeVersion : string) : string :=
  "      - name: Setup Node.js ${{ matrix.node-version }}" ++ JS.nl ++
  "        uses: actions/setup-node@" ++ setupNodeVersion ++ JS.nl ++
  "        with:" ++ JS.nl ++
  "          node-version: ${{ matrix.node-version }}".

Definition installStep : string :=
  "      - name: Install dependencies" ++ JS.nl ++
  "        run: npm install".

Definition typecheckStep : string :=
  "      - name: Type check" ++ JS.nl ++
  "        run: npm run typecheck".

Definition lintStep : string :=
  "      - name: Lint" ++ JS.nl ++
  "        run: npm run lint".

Definition testStep (testCommand : string) : string :=
  "      - name: Run tests" ++ JS.nl ++
  "        run: " ++ testCommand.

Definition buildStep : string :=
  "      - name: Build" ++ JS.nl ++
  "        run: npm run build".

Definition codecovStep (latestLTS : Z) (codecovVersion : string) : string :=
  "      - name: Upload coverage to Codecov" ++ JS.nl ++
  "        if: matrix.node-version == '" ++ JS.showZ latestLTS ++ "'" ++ JS.nl ++
  "        uses: codecov/codecov-action@" ++ codecovVersion ++ JS.nl ++
  "        continue-on-error: true" ++ JS.nl ++
  "        with:" ++ JS.nl ++
  "          token: ${{ secrets.CODECOV_TOKEN }}" ++ JS.nl ++
  "          fail_ci_if_error: false".

(** The [steps] array of [generateCIWorkflow], after all the pushes. *)
Definition ciSteps (config : ProjectConfig) (nodeConfig : NodeFetcher.NodeVersionConfig)
    (actionVersions : gmap string ActionsFetcher.ActionVersionResult) : list string :=
  let checkoutVersion := actionVersion actionVersions "actions/checkout" "v4" in
  let setupNodeVersion := actionVersion actionVersions "actions/setup-node" "v4" in
  let codecovVersion := actionVersion actionVersions "codecov/codecov-action" "v4" in
  let steps :=
    [ checkoutStep checkoutVersion; setupNodeStep setupNodeVersion; installStep ] in
  let steps :=
    if isTypescript (language config) then JS.push steps (typecheckStep) else steps in
  let steps :=
    if useLinting config then JS.push steps (lintStep) else steps in
  let steps :=
    if hasTests (testRunner config) then
      let testCommand := if setupCI config then "npm run test:coverage" else "npm test" in
      JS.push steps (testStep testCommand)
    else steps in
  let steps := JS.push steps (buildStep) in
  let steps :=
    if hasTests (testRunner config) && useCodecov config then
      JS.push steps (codecovStep (NodeFetcher.latestLTS nodeConfig) codecovVersion)
    else steps in
  steps.

Definition ciHeader (nodeVersions : list string) : string :=
  "name: CI" ++ JS.nl ++
  JS.nl ++
  "on:" ++ JS.nl ++
  "  push:" ++ JS.nl ++
  "    branches: [main]" ++ JS.nl ++
  "  pull_request:" ++ JS.nl ++
  "    branches: [main]" ++ JS.nl ++
  JS.nl ++
  "jobs:" ++ JS.nl ++
  "  test:" ++ JS.nl ++
  "    runs-on: ubuntu-latest" ++ JS.nl ++
  "    strategy:" ++ JS.nl ++
  "      matrix:" ++ JS.nl ++
  "        node-version: [" ++ JS.join ", " nodeVersions ++ "]" ++ JS.nl ++
  "    steps:" ++ JS.nl.

Definition generateCIWorkflow (config : ProjectConfig)
    (nodeConfig : NodeFetcher.NodeVersionConfig)
    (actionVersions : gmap string ActionsFetcher.ActionVersionResult) : string :=
  let nodeVersions := map JS.showZ (NodeFetcher.ciMatrix nodeConfig) in
  ciHeader nodeVersions
    ++ JS.join (JS.nl ++ JS.nl) (ciSteps config nodeConfig actionVersions)
    ++ JS.nl.

Definition generateCDWorkflow (nodeConfig : NodeFetcher.NodeVersionConfig)
    (actionVersions : gmap string ActionsFetcher.ActionVersionResult) : string :=
  let checkoutVersion := actionVersion actionVersions "actions/checkout" "v4" in
  let setupNodeVersion := actionVersion actionVersions "actions/setup-node" "v4" in
  "name: Publish to npm" ++ JS.nl ++
  JS.nl ++
  "on:" ++ JS.nl ++
  "  release:" ++ JS.nl ++
  "    types: [created]" ++ JS.nl ++
  JS.nl ++
  "jobs:" ++ JS.nl ++
  "  publish:" ++ JS.nl ++
  "    runs-on: ubuntu-latest" ++ JS.nl ++
  "    permissions:" ++ JS.nl ++
  "      contents: read" ++ JS.nl ++
  "      id-token: write" ++ JS.nl ++
  JS.nl ++
  "    steps:" ++ JS.nl ++
  "      - name: Checkout" ++ JS.nl ++
  "        uses: actions/checkout@" ++ checkoutVersion ++ JS.nl ++
  JS.nl ++
  "      - name: Setup Node.js" ++ JS.nl ++
  "        uses: actions/setup-node@" ++ setupNodeVersion ++ JS.nl ++
  "        with:" ++ JS.nl ++
  "          node-version: '" ++ JS.showZ (NodeFetcher.latestLTS nodeConfig) ++ ".x'" ++ JS.nl ++
  "          registry-url: 'https://registry.npmjs.org'" ++ JS.nl ++
  "          cache: 'npm'" ++ JS.nl ++
  JS.nl ++
  "      - name: Install Dependencies" ++ JS.nl ++
  "        run: npm ci" ++ JS.nl ++
  JS.nl ++
  "      - name: Run Tests" ++ JS.nl ++
  "        run: npm run test:all" ++ JS.nl ++
  JS.nl ++
  "      - name: Publish to npm" ++ JS.nl ++
  "        run: npm publish --access public" ++ JS.nl ++
  "        env:" ++ JS.nl ++
  "          NODE_AUTH_TOKEN: ${{ secrets.NPM_TOKEN }}" ++ JS.nl.

(** Every resolved action version is a major tag. *)
Definition majorTagsOnly
    (actionVersions : gmap string ActionsFetcher.ActionVersionResult) : Prop :=
  forall key r,
    actionVersions !! key = Some r ->
    ActionsFetcher.isMajorTag (ActionsFetcher.version r) = true.

(** A step of the workflow by its [name:] line. *)
Definition isCodecovStep (step : string) : bool :=
  JS.startsWith step "      - name: Upload coverage to Codecov".

End Workflows.

(** ** The earlier CI workflow generator, with its fixed versions *)

Module LegacyWorkflows.

Definition ciSteps (config : ProjectConfig) : list string :=
  let steps :=
    [ "      - name: Checkout code" ++ JS.nl ++
      "        uses: actions/checkout@v4";
      "      - name: Setup Node.js ${{ matrix.node-version }}" ++ JS.nl ++
      "        uses: actions/setup-node@v4" ++ JS.nl ++
      "        with:" ++ JS.nl ++
      "          node-version: ${{ matrix.node-version }}";
      "      - name: Install dependencies" ++ JS.nl ++
      "        run: npm install" ] in
  let steps :=
    if isTypescript (language config) then
      JS.push steps ("      - name: Type check" ++ JS.nl ++
                     "        run: npm run typecheck")
    else steps in
  let steps :=
    if useLinting config then
      JS.push steps ("      - name: Lint" ++ JS.nl ++
                     "        run: npm run lint")
    else steps in
  let steps :=
    if hasTests (testRunner config) then
      let testCommand := if setupCI config then "npm run test:coverage" else "npm test" in
      JS.push steps ("      - name: Run tests" ++ JS.nl ++
                     "        run: " ++ testCommand)
    else steps in
  let steps :=
    JS.push steps ("      - name: Build" ++ JS.nl ++
                   "        run: npm run build") in
  let steps :=
    if hasTests (testRunner config) && useCodecov config then
      JS.push steps ("      - name: Upload coverage to Codecov" ++ JS.nl ++
                     "        if: matrix.node-version == '20'" ++ JS.nl ++
                     "        uses: codecov/codecov-action@v4" ++ JS.nl ++
                     "        continue-on-error: true" ++ JS.nl ++
                     "        with:" ++ JS.nl ++
                     "          token: ${{ secrets.CODECOV_TOKEN }}" ++ JS.nl ++
                     "          fail_ci_if_error: false")
    else steps in
  steps.

Definition generateCIWorkflow (config : ProjectConfig) : string :=
  let nodeVersions := ["18"; "20"; "22"] in
  "name: CI" ++ JS.nl ++
  JS.nl ++
  "on:" ++ JS.nl ++
  "  push:" ++ JS.nl ++
  "    branches: [main]" ++ JS.nl ++
  "  pull_request:" ++ JS.nl ++
  "    branches: [main]" ++ JS.nl ++
  JS.nl ++
  "jobs:" ++ JS.nl ++
  "  test:" ++ JS.nl ++
  "    runs-on: ubuntu-latest" ++ JS.nl ++
  "    strategy:" ++ JS.nl ++
  "      matrix:" ++ JS.nl ++
  "        node-version: [" ++ JS.join ", " nodeVersions ++ "]" ++ JS.nl ++
  "    steps:" ++ JS.nl ++
  JS.join (JS.nl ++ JS.nl) (ciSteps config) ++ JS.nl.

End LegacyWorkflows.

(** * Properties *)

(** Appending to a string literal computes inside the proofs below. *)
#[local] Arguments String.append !s1 s2 : simpl nomatch.

(** ** Strings *)

Section StringFacts.

Lemma append_assoc (a b c : string) : (a ++ b) ++ c = a ++ b ++ c.
Proof. induction a as [|x a IH]; simpl; [reflexivity | now rewrite IH]. Qed.

Lemma append_empty_r (a : string) : a ++ EmptyString = a.
Proof. induction a as [|x a IH]; simpl; [reflexivity | now rewrite IH]. Qed.

Lemma prefix_spec (n h : string) :
  String.prefix n h = true <-> exists q, h = n ++ q.
Proof.
  revert h; induction n as [|x n IH]; intros h.
  - split; [intros _; now exists h | intros _; now destruct h].
  - destruct h as [|y h]; simpl.
    + split; [discriminate | intros [q Hq]; discriminate].
    + destruct (ascii_dec x y) as [->|Hne].
      * rewrite IH. split; intros [q Hq]; exists q; [now rewrite Hq | now inversion Hq].
      * split; [discriminate | intros [q Hq]; inversion Hq; congruence].
Qed.

Lemma includes_cons (n : string) (y : ascii) (h : string) :
  JS.includes n (String y h) = String.prefix n (String y h) || JS.includes n h.
Proof. reflexivity. Qed.

Lemma includes_nil (n : string) :
  JS.includes n EmptyString = String.prefix n EmptyString.
Proof. unfold JS.includes. now rewrite orb_false_r. Qed.

Lemma includes_spec (n h : string) :
  JS.includes n h = true <-> exists p q, h = p ++ n ++ q.
Proof.
  split.
  - induction h as [|y h IH].
    + rewrite includes_nil. intros Hp.
      apply prefix_spec in Hp as [q Hq]. now exists EmptyString, q.
    + rewrite includes_cons, orb_true_iff. intros [Hp|Hr].
      * apply prefix_spec in Hp as [q Hq]. now exists EmptyString, q.
      * destruct (IH Hr) as (p & q & ->). now exists (String y p), q.
  - intros (p & q & ->). induction p as [|y p IH].
    + change (EmptyString ++ n ++ q) with (n ++ q).
      assert (Hp : String.prefix n (n ++ q) = true)
        by (apply prefix_spec; now exists q).
      destruct (n ++ q) as [|y r].
      * now rewrite includes_nil.
      * now rewrite includes_cons, Hp.
    + change (String y p ++ n ++ q) with (String y (p ++ n ++ q)).
      now rewrite includes_cons, IH, orb_true_r.
Qed.

Lemma includes_refl (s : string) : JS.includes s s = true.
Proof. apply includes_spec. exists EmptyString, EmptyString. now rewrite append_empty_r. Qed.

Lemma includes_app_l (n a b : string) :
  JS.includes n a = true -> JS.includes n (a ++ b) = true.
Proof.
  rewrite !includes_spec. intros (p & q & ->). exists p, (q ++ b).
  now rewrite !append_assoc.
Qed.

Lemma includes_app_r (n a b : string) :
  JS.includes n b = true -> JS.includes n (a ++ b) = true.
Proof.
  rewrite !includes_spec. intros (p & q & ->). exists (a ++ p), q.
  now rewrite !append_assoc.
Qed.

Lemma includes_trans (a b c : string) :
  JS.includes a b = true -> JS.includes b c = true -> JS.includes a c = true.
Proof.
  rewrite !includes_spec. intros (p & q & ->) (p' & q' & ->).
  exists (p' ++ p), (q ++ q'). now rewrite !append_assoc.
Qed.

Lemma includes_join (sep s : string) (parts : list string) :
  In s parts -> JS.includes s (JS.join sep parts) = true.
Proof.
  unfold JS.join. induction parts as [|x parts IH]; [intros []|].
  intros [->|Hin]; destruct parts as [|y parts]; simpl in *.
  - apply includes_refl.
  - apply includes_app_l, includes_refl.
  - destruct Hin.
  - apply includes_app_r, includes_app_r. now apply IH.
Qed.

Lemma mentions_app (c : ascii) (a b : string) :
  JS.mentions c (a ++ b) = JS.mentions c a || JS.mentions c b.
Proof.
  induction a as [|x a IH]; simpl; [reflexivity|].
  now rewrite IH, orb_assoc.
Qed.

Lemma includes_mentions (n h : string) (c : ascii) :
  JS.includes n h = true -> JS.mentions c n = true -> JS.mentions c h = true.
Proof.
  intros (p & q & ->)%includes_spec Hc.
  rewrite !mentions_app, Hc. now rewrite orb_true_r.
Qed.

Lemma mentions_join (c : ascii) (sep : string) (parts : list string) :
  JS.mentions c sep = false ->
  Forall (fun s => JS.mentions c s = false) parts ->
  JS.mentions c (JS.join sep parts) = false.
Proof.
  intros Hsep. unfold JS.join. induction 1 as [|x parts Hx Hparts IH]; [reflexivity|].
  destruct parts as [|y parts]; [exact Hx|].
  change (JS.mentions c (x ++ sep ++ String.concat sep (y :: parts)) = false).
  now rewrite !mentions_app, Hx, Hsep, IH.
Qed.

Lemma digits_mention_only_digits (c : ascii) (ds : string) :
  JS.isDigit c = false -> JS.allDigits ds = true -> JS.mentions c ds = false.
Proof.
  intros Hc. induction ds as [|x ds IH]; simpl; [reflexivity|].
  intros [Hx Hds]%andb_true_iff. rewrite (IH Hds), orb_false_r.
  destruct (Ascii.eqb_spec x c) as [->|_]; congruence.
Qed.

Lemma showZ_mentions (c : ascii) (z : Z) :
  JS.isDigit c = false -> c <> "-"%char -> JS.mentions c (JS.showZ z) = false.
Proof.
  intros Hc Hdash.
  assert (Hu : forall d, JS.mentions c (NilEmpty.string_of_uint d) = false).
  { induction d; cbn [NilEmpty.string_of_uint JS.mentions];
      rewrite ?IHd, ?orb_false_r; try reflexivity;
      match goal with
      | |- Ascii.eqb ?x c = false =>
          destruct (Ascii.eqb_spec x c) as [<-|_]; [discriminate Hc | reflexivity]
      end. }
  assert (Hz : forall d, JS.mentions c (NilZero.string_of_uint d) = false).
  { intros d. unfold NilZero.string_of_uint.
    destruct d; try apply Hu.
    cbn [JS.mentions]. rewrite orb_false_r.
    destruct (Ascii.eqb_spec "0" c) as [<-|_]; [discriminate Hc | reflexivity]. }
  unfold JS.showZ, NilZero.string_of_int. destruct (Z.to_int z); [apply Hz|].
  cbn [JS.mentions]. rewrite Hz, orb_false_r.
  destruct (Ascii.eqb_spec "-" c) as [<-|_]; [congruence | reflexivity].
Qed.

End StringFacts.

(** Looks for the needle after [indent] at the start of one of the chunks
    that the text is appended from. *)
Ltac find_after indent :=
  first [ apply includes_spec; exists indent; eexists; reflexivity
        | apply includes_spec; exists indent, EmptyString;
          rewrite append_empty_r; reflexivity
        | apply includes_app_r; find_after indent ].

(** ** Sorting and duplicates *)

Section SortFacts.

Context {A : Type} (cmp : A -> A -> Z) (P : A -> Prop).

Local Abbreviation before := (JS.before cmp).

Hypothesis cmp_total : forall x y, P x -> P y -> before x y \/ before y x.
Hypothesis cmp_trans :
  forall x y z, P x -> P y -> P z -> before x y -> before y z -> before x z.

Lemma insertBy_Permutation (x : A) (l : list A) :
  Permutation (JS.insertBy cmp x l) (x :: l).
Proof.
  induction l as [|y l IH]; simpl; [reflexivity|].
  destruct (cmp x y <=? 0)%Z; [reflexivity|].
  rewrite IH. apply perm_swap.
Qed.

Lemma sortBy_Permutation (l : list A) : Permutation (JS.sortBy cmp l) l.
Proof.
  induction l as [|x l IH]; simpl; [reflexivity|].
  now rewrite insertBy_Permutation, IH.
Qed.

Lemma sortBy_In (x : A) (l : list A) : In x (JS.sortBy cmp l) <-> In x l.
Proof.
  split; apply Permutation_in;
    [apply sortBy_Permutation | symmetry; apply sortBy_Permutation].
Qed.

Lemma insertBy_sorted (x : A) (l : list A) :
  P x -> Forall P l ->
  StronglySorted before l -> StronglySorted before (JS.insertBy cmp x l).
Proof.
  intros Px. induction l as [|y l IH]; intros HP Hs; simpl.
  - repeat constructor.
  - apply Forall_cons in HP as [Py HP].
    apply StronglySorted_inv in Hs as [Hs Hy].
    destruct (Z.leb_spec (cmp x y) 0) as [Hle|Hgt].
    + constructor; [now constructor|]. constructor; [exact Hle|].
      rewrite Forall_forall in *. intros z Hz.
      apply cmp_trans with y; auto.
    + constructor; [now apply IH|].
      rewrite (insertBy_Permutation x l). constructor; [|exact Hy].
      destruct (cmp_total x y Px Py) as [H|H]; [unfold JS.before in H; lia | exact H].
Qed.

Lemma sortBy_sorted (l : list A) :
  Forall P l -> StronglySorted before (JS.sortBy cmp l).
Proof.
  induction l as [|x l IH]; intros HP; simpl; [constructor|].
  apply Forall_cons in HP as [Px HP].
  apply insertBy_sorted; auto.
  now rewrite sortBy_Permutation.
Qed.

End SortFacts.

Lemma StronglySorted_rev {A} (R : A -> A -> Prop) (l : list A) :
  StronglySorted R l -> StronglySorted (fun x y => R y x) (rev l).
Proof.
  induction 1 as [|x l Hs IH Hx]; simpl; [constructor|].
  apply StronglySorted_app_2; [|exact IH|repeat constructor].
  intros a b Ha Hb. apply list_elem_of_In in Ha, Hb.
  destruct Hb as [<-|[]]. apply in_rev in Ha.
  rewrite Forall_forall in Hx. now apply Hx, list_elem_of_In.
Qed.

Lemma unique_In (seen l : list Z) (x : Z) :
  In x (JS.unique seen l) <-> In x l /\ ~ In x seen.
Proof.
  revert seen; induction l as [|y l IH]; intros seen; simpl; [tauto|].
  destruct (existsb (Z.eqb y) seen) eqn:E.
  - apply existsb_exists in E as (z & Hz & Hyz). apply Z.eqb_eq in Hyz as <-.
    rewrite IH. split; [tauto|]. intros [[->|H] Hn]; tauto.
  - assert (Hy : ~ In y seen).
    { intros Hy. assert (existsb (Z.eqb y) seen = true); [|congruence].
      apply existsb_exists. exists y. split; [exact Hy | apply Z.eqb_refl]. }
    simpl. rewrite IH. simpl. split.
    + intros [->|[H Hn]]; [tauto|]. split; [tauto|]. intros H'. apply Hn. now right.
    + intros [[->|H] Hn]; [now left|].
      destruct (Z.eq_dec y x) as [->|Hne]; [now left|]. right.
      split; [exact H|]. intros [H'|H']; [congruence | tauto].
Qed.

Lemma unique_NoDup (seen l : list Z) : NoDup (JS.unique seen l).
Proof.
  revert seen; induction l as [|y l IH]; intros seen; simpl; [constructor|].
  destruct (existsb (Z.eqb y) seen); [apply IH|].
  apply NoDup_cons_2; [|apply IH].
  rewrite list_elem_of_In, unique_In. simpl. tauto.
Qed.

(** ** Version strings *)

Section VersionStrings.

Import VersionFetcher.

Lemma isDigit_not_dot (c : ascii) : JS.isDigit c = true -> Ascii.eqb c "." = false.
Proof. destruct c as [[] [] [] [] [] [] [] []]; (discriminate || reflexivity). Qed.

Lemma isDigit_not_dash (c : ascii) : JS.isDigit c = true -> c <> "-"%char.
Proof. destruct c as [[] [] [] [] [] [] [] []]; (discriminate || (intros _; discriminate)). Qed.

Lemma split_not_nil (sep : ascii) (s : string) : JS.split sep s <> [].
Proof.
  destruct s as [|c s]; simpl; [discriminate|].
  destruct (Ascii.eqb c sep); [discriminate|].
  destruct (JS.split sep s); discriminate.
Qed.

Lemma split_digits_end (ds : string) :
  JS.allDigits ds = true -> JS.split "." ds = [ds].
Proof.
  induction ds as [|c ds IH]; simpl; [reflexivity|].
  intros [Hc Hds]%andb_true_iff.
  now rewrite (isDigit_not_dot c Hc), (IH Hds).
Qed.

Lemma split_digits_dot (ds rest : string) :
  JS.allDigits ds = true ->
  JS.split "." (ds ++ String "." rest) = ds :: JS.split "." rest.
Proof.
  induction ds as [|c ds IH]; simpl; [reflexivity|].
  intros [Hc Hds]%andb_true_iff.
  now rewrite (isDigit_not_dot c Hc), (IH Hds).
Qed.

Lemma skipDigits_spec (s : string) :
  exists ds, s = ds ++ skipDigits s /\ JS.allDigits ds = true.
Proof.
  induction s as [|c s (ds & Hs & Hds)]; simpl.
  - now exists EmptyString.
  - destruct (JS.isDigit c) eqn:Hc.
    + exists (String c ds). simpl. rewrite Hc, Hds. now rewrite <- Hs.
    + now exists EmptyString.
Qed.

Lemma digits1_spec (s r : string) :
  digits1 s = Some r ->
  exists ds, s = ds ++ r /\ JS.allDigits ds = true /\ ds <> EmptyString.
Proof.
  destruct s as [|c s]; simpl; [discriminate|].
  destruct (JS.isDigit c) eqn:Hc; [|discriminate]. intros [= <-].
  destruct (skipDigits_spec s) as (ds & Hs & Hds).
  exists (String c ds). simpl. rewrite Hc, Hds. now rewrite <- Hs.
Qed.

Lemma dot_spec (s r : string) : dot s = Some r -> s = String "." r.
Proof.
  destruct s as [|c s]; simpl; [discriminate|].
  destruct (Ascii.eqb_spec c "."); [|discriminate]. now intros [= <-]; subst.
Qed.

(** What the regular expression accepts: three non-empty runs of digits
    separated by dots, and nothing else. *)
Lemma semverTest_shape (v : string) :
  semverTest v = true ->
  exists a b c,
    v = a ++ "." ++ b ++ "." ++ c /\
    (JS.allDigits a = true /\ a <> EmptyString) /\
    (JS.allDigits b = true /\ b <> EmptyString) /\
    (JS.allDigits c = true /\ c <> EmptyString).
Proof.
  unfold semverTest, semverRest.
  destruct (digits1 v) as [s1|] eqn:E1; simpl; [|discriminate].
  destruct (dot s1) as [s2|] eqn:E2; simpl; [|discriminate].
  destruct (digits1 s2) as [s3|] eqn:E3; simpl; [|discriminate].
  destruct (dot s3) as [s4|] eqn:E4; simpl; [|discriminate].
  destruct (digits1 s4) as [[|? ?]|] eqn:E5; try discriminate. intros _.
  apply digits1_spec in E1 as (a & -> & Ha), E3 as (b & -> & Hb), E5 as (c & -> & Hc).
  apply dot_spec in E2 as ->, E4 as ->.
  exists a, b, c. rewrite append_empty_r. now repeat split.
Qed.

Lemma Number_digits (ds : string) :
  JS.allDigits ds = true -> ds <> EmptyString ->
  JS.Number ds = JS.Num (JS.digitsValue 0 ds).
Proof.
  intros Hds Hne. destruct ds as [|c ds]; [congruence|].
  unfold JS.Number. now rewrite Hds.
Qed.

Lemma partsOf_semver (v : string) :
  semverTest v = true ->
  exists a b c, partsOf v = [JS.Num a; JS.Num b; JS.Num c].
Proof.
  intros (a & b & c & -> & [Ha Ha'] & [Hb Hb'] & [Hc Hc'])%semverTest_shape.
  exists (JS.digitsValue 0 a), (JS.digitsValue 0 b), (JS.digitsValue 0 c).
  unfold partsOf.
  change (a ++ "." ++ b ++ "." ++ c) with (a ++ String "." (b ++ String "." c)).
  rewrite !split_digits_dot, split_digits_end by assumption. simpl.
  now rewrite !Number_digits.
Qed.

Lemma versionKey_semver (v : string) :
  semverTest v = true -> is_Some (versionKey v).
Proof.
  intros (a & b & c & H)%partsOf_semver. unfold versionKey. rewrite H. eauto.
Qed.

Lemma versionKey_parts (v : string) (a b c : Z) :
  versionKey v = Some (a, b, c) -> partsOf v = [JS.Num a; JS.Num b; JS.Num c].
Proof.
  unfold versionKey.
  destruct (partsOf v) as [|[|x] [|[|y] [|[|z] [|? ?]]]]; try discriminate.
  now intros [= -> -> ->].
Qed.

(** On stable versions [compareVersions] orders by major, then minor, then
    patch, each as a number. *)
Lemma compareVersions_key (x y : string) (kx ky : Z * Z * Z) :
  versionKey x = Some kx -> versionKey y = Some ky ->
  ((compareVersions x y <= 0)%Z <-> keyLe kx ky).
Proof.
  destruct kx as [[a b] c], ky as [[a' b'] c'].
  intros Hx%versionKey_parts Hy%versionKey_parts.
  unfold compareVersions, compareAt, JS.lt, JS.gt, keyLe. rewrite Hx, Hy. simpl.
  repeat match goal with
         | |- context [(?p <? ?q)%Z] => destruct (Z.ltb_spec p q)
         end; lia.
Qed.

Lemma keyLe_total (x y : Z * Z * Z) : keyLe x y \/ keyLe y x.
Proof. destruct x as [[a b] c], y as [[a' b'] c']. unfold keyLe. lia. Qed.

Lemma keyLe_trans (x y z : Z * Z * Z) : keyLe x y -> keyLe y z -> keyLe x z.
Proof.
  destruct x as [[a b] c], y as [[a' b'] c'], z as [[a2 b2] c2]. unfold keyLe. lia.
Qed.

(** A stable version has no hyphen, so the first filter of
    [getStableFallbackVersion] removes nothing that the second keeps. *)
Lemma digits_no_dash (ds rest : string) :
  JS.allDigits ds = true ->
  JS.includes "-" (ds ++ rest) = JS.includes "-" rest.
Proof.
  induction ds as [|c ds IH]; [reflexivity|].
  intros Hds. simpl in Hds. apply andb_true_iff in Hds as [Hc Hds].
  change (String c ds ++ rest) with (String c (ds ++ rest)).
  rewrite includes_cons, (IH Hds).
  pose proof (isDigit_not_dash c Hc) as Hne.
  unfold String.prefix. destruct (ascii_dec "-" c) as [E|_]; [congruence|].
  reflexivity.
Qed.

Lemma dot_no_dash (rest : string) :
  JS.includes "-" (String "." rest) = JS.includes "-" rest.
Proof. now rewrite includes_cons. Qed.

Lemma semverTest_no_dash (v : string) :
  semverTest v = true -> JS.includes "-" v = false.
Proof.
  intros (a & b & c & -> & [Ha _] & [Hb _] & [Hc _])%semverTest_shape.
  change (a ++ "." ++ b ++ "." ++ c) with (a ++ String "." (b ++ String "." c)).
  rewrite digits_no_dash, dot_no_dash, digits_no_dash, dot_no_dash by assumption.
  rewrite <- (append_empty_r c), digits_no_dash by assumption. reflexivity.
Qed.

End VersionStrings.

(** ** package.json *)

Section GeneratorsFacts.

Import Generators.

(** C1. For each of the six pairs of language and module format,
    [generateEntryPoints] returns an object with an [exports["."]] entry;
    for JavaScript it is the plain string [./src/index.js], and for
    TypeScript it is an object whose keys are exactly types and import
    (esm), types and require (commonjs), or types, import and require
    (dual). *)
Theorem entry_points_cover_every_configuration (config : ProjectConfig) :
  exists target,
    exportRoot (generateEntryPoints config) = Some target /\
    match language config with
    | javascript => target = TargetPath "./src/index.js"
    | typescript =>
        exists conditions,
          target = TargetConditions conditions /\
          dom conditions = expectedConditions (moduleType config)
    end.
Proof.
  destruct config as [name lang fmt tr lint cs git ci cd cov dep].
  destruct lang, fmt; simpl language; simpl moduleType;
    (eexists; split; [reflexivity|]);
    try reflexivity; (eexists; split; [reflexivity|]); reflexivity.
Qed.

(** C2. In the manifest of a TypeScript dual package [exports["."].import]
    ends in [.mjs] and [exports["."].require] ends in [.js] and not in
    [.mjs]; and the [type] field of every manifest is [module] for esm and
    dual, and [commonjs] exactly for commonjs. *)
Theorem dual_extensions_and_package_type :
  (forall config,
     language config = typescript -> moduleType config = dual ->
     exists conditions import require,
       exportConditions (generatePackageJson config) = Some conditions /\
       conditions !! "import" = Some import /\
       conditions !! "require" = Some require /\
       JS.endsWith import ".mjs" = true /\
       JS.endsWith require ".js" = true /\
       JS.endsWith require ".mjs" = false /\
       JS.endsWith import ".js" = false) /\
  (forall config,
     (moduleType config <> commonjs ->
      generatePackageJson config !! "type" = Some (FString "module")) /\
     (generatePackageJson config !! "type" = Some (FString "commonjs") <->
      moduleType config = commonjs)).
Proof.
  split.
  - intros [name lang fmt tr lint cs git ci cd cov dep]; simpl; intros -> ->.
    destruct cs; do 3 eexists; repeat split; reflexivity.
  - intros [name lang fmt tr lint cs git ci cd cov dep]; simpl.
    destruct fmt, lang, cs; (split; [| split]);
      try congruence; try reflexivity; try discriminate.
Qed.

Lemma dual_extensions_and_package_type_witness :
  exists conditions import require,
    exportConditions
      (generatePackageJson
         {| packageName := "test-package"; language := typescript;
            moduleType := dual; testRunner := vitest; useLinting := true;
            useChangesets := false; initGit := true; setupCI := false;
            setupCD := false; useCodecov := false; useDependabot := false |})
      = Some conditions /\
    conditions !! "import" = Some import /\
    conditions !! "require" = Some require /\
    JS.endsWith import ".mjs" = true /\
    JS.endsWith require ".js" = true /\
    JS.endsWith require ".mjs" = false /\
    JS.endsWith import ".js" = false.
Proof.
  apply (proj1 dual_extensions_and_package_type); reflexivity.
Defined.

(** C7, as stated, fails: for a TypeScript configuration with linting the
    [lint] command is [eslint . --ext .ts], not [eslint .], the [lint:fix]
    command is [eslint . --ext .ts --fix], not [eslint . --fix], and both
    contain [--ext]. *)
Lemma lint_commands_without_ext_refuted :
  useLinting baseConfig = true /\
  generateScripts baseConfig !! "lint" <> Some "eslint ." /\
  generateScripts baseConfig !! "lint:fix" <> Some "eslint . --fix" /\
  exists lint lintFix,
    generateScripts baseConfig !! "lint" = Some lint /\
    generateScripts baseConfig !! "lint:fix" = Some lintFix /\
    JS.includes "--ext" lint = true /\
    JS.includes "--ext" lintFix = true.
Proof.
  split; [reflexivity|].
  split; [vm_compute; discriminate|].
  split; [vm_compute; discriminate|].
  exists "eslint . --ext .ts", "eslint . --ext .ts --fix". now repeat split.
Qed.

(** C7, amended. With [useLinting] the scripts contain [lint], [lint:fix],
    [format] and [format:check]; the lint commands carry the file-extension
    flag of the configured language, so [lint] is [eslint . --ext .ts] and
    [lint:fix] is [eslint . --ext .ts --fix] for TypeScript, with [.js] for
    JavaScript, and both contain [--ext]. Without [useLinting] none of the
    four scripts is present. *)
Theorem lint_scripts_follow_linting (config : ProjectConfig) :
  let scripts := generateScripts config in
  let ext := if isTypescript (language config) then ".ts" else ".js" in
  if useLinting config then
    scripts !! "lint" = Some ("eslint . --ext " ++ ext) /\
    scripts !! "lint:fix" = Some ("eslint . --ext " ++ ext ++ " --fix") /\
    JS.includes "--ext" ("eslint . --ext " ++ ext) = true /\
    JS.includes "--ext" ("eslint . --ext " ++ ext ++ " --fix") = true /\
    is_Some (scripts !! "format") /\
    is_Some (scripts !! "format:check")
  else
    scripts !! "lint" = None /\
    scripts !! "lint:fix" = None /\
    scripts !! "format" = None /\
    scripts !! "format:check" = None.
Proof.
  destruct config as [pkg lang fmt tr lint cs git ci cd cov dep].
  destruct lang, tr, lint; vm_compute; repeat split; eauto.
Qed.

(** C8, as stated, fails: when the registry answers [5.9.3] for
    [typescript] the version fetcher resolves it to [^5.9.3], and the
    [typescript] dev dependency is [^5.3.3] all the same; a registry that
    answers [5.4.0] changes the resolved version and not the emitted one. *)
Lemma dev_dependencies_not_resolved :
  let answer v : JS.FetchOutcome VersionFetcher.NpmPackageData :=
    JS.Responded true 200
      (Some {| VersionFetcher.data_version := Some v;
               VersionFetcher.data_time := ∅;
               VersionFetcher.data_versions := [] |}) in
  let resolved v :=
    VersionFetcher.fetchLatestVersions 0 (fun _ => (answer v, JS.NetworkError))
      ["typescript"] in
  (VersionFetcher.version <$> resolved "5.9.3" !! "typescript") = Some "^5.9.3" /\
  (VersionFetcher.version <$> resolved "5.4.0" !! "typescript") = Some "^5.4.0" /\
  generateDevDependencies baseConfig !! "typescript" = Some "^5.3.3" /\
  generateDevDependencies baseConfig !! "typescript"
    <> (VersionFetcher.version <$> resolved "5.9.3" !! "typescript").
Proof.
  split; [reflexivity|]. split; [reflexivity|]. split; [reflexivity|].
  vm_compute. discriminate.
Qed.

(** C8, amended. [generateDevDependencies] takes the configuration only,
    and each entry of its map has the version written inline for that
    package name, the same in every configuration: no resolved version
    reaches the map. *)
Theorem dev_dependency_versions_are_inline (config : ProjectConfig) (name v : string) :
  generateDevDependencies config !! name = Some v ->
  In (name, v)
     [ ("typescript", "^5.3.3"); ("tsup", "^8.0.1"); ("@types/node", "^20.11.0");
       ("@arethetypeswrong/cli", "^0.15.0"); ("vitest", "^1.2.0");
       ("jest", "^29.7.0"); ("ts-jest", "^29.1.1"); ("@types/jest", "^29.5.11");
       ("@typescript-eslint/eslint-plugin", "^6.19.0");
       ("@typescript-eslint/parser", "^6.19.0"); ("eslint", "^8.56.0");
       ("prettier", "^3.2.4"); ("eslint-config-prettier", "^9.1.0");
       ("@changesets/cli", "^2.27.1") ].
Proof.
  destruct config as [pkg lang fmt tr lint cs git ci cd cov dep].
  unfold generateDevDependencies; simpl.
  destruct lang, tr, lint, cs; simpl;
    repeat (rewrite lookup_insert; case_decide; [intros [= <-]; subst; simpl; tauto|]);
    rewrite lookup_empty; discriminate.
Qed.

Lemma dev_dependency_versions_are_inline_witness :
  generateDevDependencies baseConfig !! "typescript" = Some "^5.3.3" /\
  In ("typescript", "^5.3.3")
     [ ("typescript", "^5.3.3"); ("tsup", "^8.0.1"); ("@types/node", "^20.11.0");
       ("@arethetypeswrong/cli", "^0.15.0"); ("vitest", "^1.2.0");
       ("jest", "^29.7.0"); ("ts-jest", "^29.1.1"); ("@types/jest", "^29.5.11");
       ("@typescript-eslint/eslint-plugin", "^6.19.0");
       ("@typescript-eslint/parser", "^6.19.0"); ("eslint", "^8.56.0");
       ("prettier", "^3.2.4"); ("eslint-config-prettier", "^9.1.0");
       ("@changesets/cli", "^2.27.1") ].
Proof.
  split; [reflexivity|].
  apply (dev_dependency_versions_are_inline baseConfig "typescript" "^5.3.3").
  reflexivity.
Defined.

End GeneratorsFacts.

(** ** The CI workflow *)

Section WorkflowFacts.

Import Workflows.

Variable config : ProjectConfig.
Variable nodeConfig : NodeFetcher.NodeVersionConfig.
Variable actionVersions : gmap string ActionsFetcher.ActionVersionResult.

Let steps := ciSteps config nodeConfig actionVersions.
Let workflow := generateCIWorkflow config nodeConfig actionVersions.
Let codecovVersion := actionVersion actionVersions "codecov/codecov-action" "v4".
Let latest := NodeFetcher.latestLTS nodeConfig.

(** Every element of the [steps] array is part of the workflow text. *)
Lemma step_in_workflow (s : string) : In s steps -> JS.includes s workflow = true.
Proof.
  intros Hin. unfold workflow, generateCIWorkflow.
  apply includes_app_r, includes_app_l. now apply includes_join.
Qed.

Lemma build_step_pushed : In buildStep steps.
Proof.
  unfold steps, ciSteps, JS.push.
  destruct (isTypescript _), (useLinting _), (hasTests _), (useCodecov _);
    cbn [andb]; rewrite ?in_app_iff; cbn [In]; tauto.
Qed.

(** The steps that are not the coverage upload, by their [name:] line. *)
Lemma other_steps_are_not_codecov (v command : string) :
  isCodecovStep (checkoutStep v) = false /\
  isCodecovStep (setupNodeStep v) = false /\
  isCodecovStep installStep = false /\
  isCodecovStep typecheckStep = false /\
  isCodecovStep lintStep = false /\
  isCodecovStep (testStep command) = false /\
  isCodecovStep buildStep = false.
Proof. repeat split; reflexivity. Qed.

Lemma codecov_step_is_codecov (l : Z) (v : string) :
  isCodecovStep (codecovStep l v) = true.
Proof. reflexivity. Qed.

(** A step of the array is the coverage upload exactly when tests and
    Codecov are both configured, and then it is the one step built from
    [latestLTS] and the resolved action version. *)
Lemma codecov_step_characterised (s : string) :
  In s steps /\ isCodecovStep s = true <->
  (hasTests (testRunner config) && useCodecov config = true) /\
  s = codecovStep latest codecovVersion.
Proof.
  unfold steps, ciSteps, JS.push, latest, codecovVersion.
  pose proof other_steps_are_not_codecov as Hother.
  destruct (isTypescript (language config)), (useLinting config),
    (hasTests (testRunner config)), (useCodecov config), (setupCI config);
    cbn [andb]; rewrite ?in_app_iff; cbn [In].
  all: split.
  all: try (intros [Hc ->];
            first [discriminate Hc | split; [tauto | reflexivity]]).
  all: intros [Hin Hc];
    repeat match goal with
           | H : _ \/ _ |- _ => destruct H as [H|H]
           | H : False |- _ => destruct H
           end; subst s.
  all: try (split; [reflexivity | reflexivity]).
  all: exfalso;
    match goal with
    | H : isCodecovStep (checkoutStep ?v) = true |- _ =>
        destruct (Hother v EmptyString) as (E & _); congruence
    | H : isCodecovStep (setupNodeStep ?v) = true |- _ =>
        destruct (Hother v EmptyString) as (_ & E & _); congruence
    | H : isCodecovStep (testStep ?c) = true |- _ =>
        destruct (Hother EmptyString c) as (_ & _ & _ & _ & _ & E & _); congruence
    | H : isCodecovStep _ = true |- _ =>
        destruct (Hother EmptyString EmptyString) as (_ & _ & ? & ? & ? & _ & ?);
        congruence
    end.
Qed.

Lemma codecov_step_gate (l : Z) (v : string) :
  JS.includes ("if: matrix.node-version == '" ++ JS.showZ l ++ "'")
    (codecovStep l v) = true /\
  JS.includes "continue-on-error: true" (codecovStep l v) = true /\
  JS.includes ("uses: codecov/codecov-action@" ++ v) (codecovStep l v) = true.
Proof.
  unfold codecovStep. repeat split; apply includes_spec.
  - exists ("      - name: Upload coverage to Codecov" ++ JS.nl ++ "        ").
    eexists. rewrite !append_assoc. reflexivity.
  - exists ("      - name: Upload coverage to Codecov" ++ JS.nl
            ++ "        if: matrix.node-version == '" ++ JS.showZ l ++ "'" ++ JS.nl
            ++ "        uses: codecov/codecov-action@" ++ v ++ JS.nl ++ "        ").
    eexists. rewrite !append_assoc. reflexivity.
  - exists ("      - name: Upload coverage to Codecov" ++ JS.nl
            ++ "        if: matrix.node-version == '" ++ JS.showZ l ++ "'" ++ JS.nl
            ++ "        ").
    eexists. rewrite !append_assoc. reflexivity.
Qed.

(** With major tags for the actions, the capital U of the upload step
    occurs nowhere else in the workflow. *)
Lemma tag_no_U (v : string) :
  ActionsFetcher.isMajorTag v = true -> JS.mentions "U" v = false.
Proof.
  destruct v as [|c ds]; [discriminate|]. unfold ActionsFetcher.isMajorTag.
  intros [[Hc Hds]%andb_true_iff _]%andb_true_iff.
  apply Ascii.eqb_eq in Hc as ->. cbn [JS.mentions].
  now rewrite digits_mention_only_digits.
Qed.

Lemma actionVersion_is_tag (key : string) :
  majorTagsOnly actionVersions ->
  ActionsFetcher.isMajorTag (actionVersion actionVersions key "v4") = true.
Proof.
  intros Htags. unfold actionVersion.
  destruct (actionVersions !! key) as [r|] eqn:E; [|reflexivity].
  specialize (Htags key r E). now destruct (ActionsFetcher.version r).
Qed.

Lemma steps_without_codecov (s : string) :
  majorTagsOnly actionVersions ->
  hasTests (testRunner config) && useCodecov config = false ->
  In s steps -> JS.mentions "U" s = false.
Proof.
  intros Htags Hcond. unfold steps, ciSteps, JS.push. rewrite Hcond.
  pose proof (tag_no_U _ (actionVersion_is_tag "actions/checkout" Htags)) as H1.
  pose proof (tag_no_U _ (actionVersion_is_tag "actions/setup-node" Htags)) as H2.
  destruct (isTypescript (language config)), (useLinting config),
    (hasTests (testRunner config)), (setupCI config);
    rewrite ?in_app_iff; cbn [In]; intros Hin;
    repeat match goal with
           | H : _ \/ _ |- _ => destruct H as [H|H]
           | H : False |- _ => destruct H
           end; subst s;
    unfold checkoutStep, setupNodeStep;
    rewrite ?mentions_app, ?H1, ?H2; reflexivity.
Qed.

Lemma workflow_mentions_codecov :
  majorTagsOnly actionVersions ->
  (JS.includes "Upload coverage to Codecov" workflow = true <->
   hasTests (testRunner config) && useCodecov config = true).
Proof.
  intros Htags. split.
  - intros Hinc. destruct (hasTests (testRunner config) && useCodecov config) eqn:Hcond;
      [reflexivity|].
    assert (HU : JS.mentions "U" workflow = true)
      by (eapply includes_mentions; [exact Hinc | reflexivity]).
    assert (Hno : JS.mentions "U" workflow = false); [|congruence].
    unfold workflow, generateCIWorkflow, ciHeader.
    rewrite !mentions_app, !mentions_join; try reflexivity.
    + apply List.Forall_forall. intros s Hs. now apply steps_without_codecov.
    + apply List.Forall_forall. intros s (z & <- & _)%in_map_iff.
      now apply showZ_mentions.
  - intros Hcond.
    apply includes_trans with (b := codecovStep latest codecovVersion);
      [reflexivity|].
    apply step_in_workflow. now apply codecov_step_characterised.
Qed.

(** C9. The CI workflow has a Codecov upload step exactly when a test
    runner is configured and [useCodecov] is set. When it has one, the step
    is part of the generated text, its [if:] condition compares the matrix
    node version with [latestLTS], and it carries
    [continue-on-error: true]. *)
Theorem codecov_upload_step :
  ((exists s, In s steps /\ isCodecovStep s = true) <->
   (testRunner config <> none /\ useCodecov config = true)) /\
  (forall s, In s steps -> isCodecovStep s = true ->
     JS.includes s workflow = true /\
     JS.includes ("if: matrix.node-version == '" ++ JS.showZ latest ++ "'") s = true /\
     JS.includes "continue-on-error: true" s = true) /\
  (majorTagsOnly actionVersions ->
   (JS.includes "Upload coverage to Codecov" workflow = true <->
    (testRunner config <> none /\ useCodecov config = true))).
Proof.
  assert (Hcond : hasTests (testRunner config) && useCodecov config = true <->
                  testRunner config <> none /\ useCodecov config = true).
  { rewrite andb_true_iff. destruct (testRunner config); simpl;
      (split; intros [H1 H2]; split; congruence). }
  split; [|split; [|intros Htags; now rewrite workflow_mentions_codecov]].
  - split.
    + intros (s & Hs). apply codecov_step_characterised in Hs as [Hc _].
      apply andb_true_iff in Hc as [Ht Hc]. split; [|exact Hc].
      intros E; rewrite E in Ht; discriminate.
    + intros [Ht Hc]. exists (codecovStep latest codecovVersion).
      apply codecov_step_characterised. split; [|reflexivity].
      rewrite Hc, andb_true_r. now destruct (testRunner config).
  - intros s Hin Hs. split; [now apply step_in_workflow|].
    destruct (proj1 (codecov_step_characterised s) (conj Hin Hs)) as [_ ->].
    destruct (codecov_step_gate latest codecovVersion) as (H1 & H2 & _).
    now split.
Qed.

(** C10. The CI workflow of every configuration has the build step
    [run: npm run build], while [generateScripts] defines a [build]
    script for TypeScript only: a JavaScript project gets a workflow that
    runs a script its package.json does not have. *)
Theorem ci_always_runs_build :
  In buildStep steps /\
  JS.includes "run: npm run build" workflow = true /\
  (is_Some (Generators.generateScripts config !! "build") <->
   language config = typescript).
Proof.
  split; [apply build_step_pushed|]. split.
  - apply includes_trans with (b := buildStep); [reflexivity|].
    apply step_in_workflow, build_step_pushed.
  - destruct config as [pkg lang fmt tr lint cs git ci cd cov dep]; simpl.
    destruct lang, tr, lint; vm_compute;
      (split; [intros [x Hx]; congruence | intros Hx; try discriminate; eauto]).
Qed.

End WorkflowFacts.

Lemma codecov_upload_step_witness :
  let av : gmap string ActionsFetcher.ActionVersionResult :=
    {[ "codecov/codecov-action" :=
         {| ActionsFetcher.version := "v5"; ActionsFetcher.warning := None;
            ActionsFetcher.usedFallback := None |} ]} in
  let cfg := codecovConfig in
  let s := Workflows.codecovStep 22 "v5" in
  In s (Workflows.ciSteps cfg NodeFetcher.FALLBACK_NODE_CONFIG av) /\
  Workflows.isCodecovStep s = true /\
  Workflows.majorTagsOnly av /\
  (JS.includes s (Workflows.generateCIWorkflow cfg NodeFetcher.FALLBACK_NODE_CONFIG av) = true /\
   JS.includes "if: matrix.node-version == '22'" s = true /\
   JS.includes "continue-on-error: true" s = true) /\
  JS.includes "Upload coverage to Codecov"
    (Workflows.generateCIWorkflow cfg NodeFetcher.FALLBACK_NODE_CONFIG av) = true.
Proof.
  intros av cfg s.
  assert (Hin : In s (Workflows.ciSteps cfg NodeFetcher.FALLBACK_NODE_CONFIG av))
    by (vm_compute; tauto).
  assert (Htags : Workflows.majorTagsOnly av).
  { intros key r [_ <-]%lookup_singleton_Some. reflexivity. }
  destruct (codecov_upload_step cfg NodeFetcher.FALLBACK_NODE_CONFIG av)
    as (_ & Hstep & Htext).
  split; [exact Hin|]. split; [reflexivity|]. split; [exact Htags|].
  split; [exact (Hstep s Hin eq_refl)|].
  apply (Htext Htags). split; [discriminate | reflexivity].
Defined.

(** ** The version fetcher *)

Section VersionFacts.

Import VersionFetcher.

(** C5. For a fetched version and an age of [daysOld] days: when the
    minor component is 0 and the version is less than 30 days old, the
    warning announces a new major version and suggests the downgrade to
    [major - 1]; otherwise, when the minor component is 1 and the version is
    less than 14 days old, the warning is the one for a recent release;
    otherwise there is none. So [2.0.1] at 5 days gets the suggestion to
    downgrade to major 1, and [2.1.0] at 100 days gets no warning. *)
Theorem warning_rule (pkg version : string) (daysOld : Z) :
  (0 <= daysOld)%Z ->
  let major := partsOf version !! 0%nat in
  let minor := partsOf version !! 1%nat in
  let newMajor := JS.isNum minor 0 && (daysOld <? 30)%Z in
  let earlyMinor := JS.isNum minor 1 && (daysOld <? 14)%Z in
  (newMajor = true ->
   exists w, generateWarning pkg version (JS.Num daysOld) = Some w /\
     JS.includes "New major version" w = true /\
     JS.includes ("downgrade: npm install " ++ pkg ++ "@"
                  ++ JS.showNum (JS.sub major 1)) w = true) /\
  (newMajor = false -> earlyMinor = true ->
   exists w, generateWarning pkg version (JS.Num daysOld) = Some w /\
     JS.includes "Recently released - may have early bugs." w = true /\
     w = warningHead pkg version (JS.Num daysOld)
           ++ "   Recently released - may have early bugs.") /\
  (newMajor = false -> earlyMinor = false ->
   generateWarning pkg version (JS.Num daysOld) = None) /\
  (exists w, generateWarning pkg "2.0.1" (JS.Num 5) = Some w /\
     JS.includes ("downgrade: npm install " ++ pkg ++ "@1") w = true) /\
  generateWarning pkg "2.1.0" (JS.Num 100) = None.
Proof.
  intros _ major minor newMajor earlyMinor.
  assert (Hlt : forall k, JS.lt (Some (JS.Num daysOld)) (Some (JS.Num k))
                          = (daysOld <? k)%Z) by reflexivity.
  repeat split.
  - intros H. unfold generateWarning. fold major minor. rewrite Hlt. fold newMajor.
    rewrite H. eexists. split; [reflexivity|]. split.
    + apply includes_app_r, includes_app_l. apply includes_spec.
      now exists "   ", " - may contain breaking changes.".
    + apply includes_app_r, includes_app_r, includes_app_r. apply includes_spec.
      exists "   If issues occur, ", EmptyString.
      rewrite append_empty_r. reflexivity.
  - intros H1 H2. unfold generateWarning. fold major minor. rewrite !Hlt.
    fold newMajor earlyMinor. rewrite H1, H2. eexists. split; [reflexivity|].
    split; [|reflexivity]. apply includes_app_r. apply includes_spec.
    now exists "   ", EmptyString.
  - intros H1 H2. unfold generateWarning. fold major minor. rewrite !Hlt.
    fold newMajor earlyMinor. now rewrite H1, H2.
  - eexists. split; [reflexivity|].
    apply includes_app_r, includes_app_r, includes_app_r. apply includes_spec.
    exists "   If issues occur, ", EmptyString.
    rewrite append_empty_r. reflexivity.
Qed.

Lemma warning_rule_witness :
  (0 <= 5)%Z /\
  exists w, generateWarning "vitest" "2.0.1" (JS.Num 5) = Some w /\
    JS.includes "New major version" w = true /\
    JS.includes "downgrade: npm install vitest@1" w = true.
Proof.
  assert (H : (0 <= 5)%Z) by lia.
  split; [exact H|].
  destruct (warning_rule "vitest" "2.0.1" 5 H) as (Hw & _).
  apply Hw. reflexivity.
Defined.

(** *** The stable fallback *)

Lemma stable_filter (l : list string) :
  List.filter semverTest (List.filter (fun v => negb (JS.includes "-" v)) l)
  = List.filter semverTest l.
Proof.
  induction l as [|v l IH]; simpl; [reflexivity|].
  destruct (semverTest v) eqn:Hv.
  - rewrite (semverTest_no_dash v Hv). simpl. now rewrite Hv, IH.
  - destruct (negb (JS.includes "-" v)); simpl; [now rewrite Hv|exact IH].
Qed.

Lemma stableVersions_Permutation (data : NpmPackageData) :
  Permutation (stableVersions data) (List.filter semverTest (data_versions data)).
Proof.
  unfold stableVersions.
  now rewrite <- Permutation_rev, sortBy_Permutation, stable_filter.
Qed.

Lemma stableVersions_In (data : NpmPackageData) (v : string) :
  In v (stableVersions data) <-> In v (data_versions data) /\ isStable v.
Proof.
  unfold isStable. rewrite <- filter_In. split; apply Permutation_in;
    [|symmetry]; apply stableVersions_Permutation.
Qed.

Lemma newerOrEqual_before (x y : string) :
  isStable x -> isStable y ->
  (JS.before compareVersions y x <-> newerOrEqual x y).
Proof.
  intros [kx Hx]%versionKey_semver [ky Hy]%versionKey_semver.
  unfold JS.before, newerOrEqual. rewrite Hx, Hy.
  now apply compareVersions_key.
Qed.

Lemma StronglySorted_weaken {A} (R R' : A -> A -> Prop) (P : A -> Prop) (l : list A) :
  (forall x y, P x -> P y -> R x y -> R' x y) ->
  Forall P l -> StronglySorted R l -> StronglySorted R' l.
Proof.
  intros HR HP Hs. induction Hs as [|x l Hs IH Hx]; [constructor|].
  apply Forall_cons in HP as [Px HP]. constructor; [now apply IH|].
  rewrite Forall_forall in *. intros y Hy. apply HR; auto.
Qed.

(** The stable versions are in descending order: each is at least as new
    as all those after it, by major, then minor, then patch. *)
Lemma stableVersions_sorted (data : NpmPackageData) :
  StronglySorted newerOrEqual (stableVersions data).
Proof.
  assert (HP : Forall isStable (stableVersions data)).
  { apply List.Forall_forall. intros v Hv. now apply stableVersions_In in Hv. }
  apply StronglySorted_weaken
    with (R := fun x y => JS.before compareVersions y x) (P := isStable);
    [intros x y Hx Hy; now apply newerOrEqual_before | exact HP |].
  unfold stableVersions. apply StronglySorted_rev.
  apply sortBy_sorted with (P := isStable).
  - intros x y [kx Hx]%versionKey_semver [ky Hy]%versionKey_semver.
    unfold JS.before. rewrite !(compareVersions_key _ _ _ _ Hx Hy),
      !(compareVersions_key _ _ _ _ Hy Hx). apply keyLe_total.
  - intros x y z [kx Hx]%versionKey_semver [ky Hy]%versionKey_semver
      [kz Hz]%versionKey_semver.
    unfold JS.before. rewrite (compareVersions_key _ _ _ _ Hx Hy),
      (compareVersions_key _ _ _ _ Hy Hz), (compareVersions_key _ _ _ _ Hx Hz).
    apply keyLe_trans.
  - apply List.Forall_forall. intros v Hv. rewrite stable_filter in Hv.
    now apply filter_In in Hv.
Qed.

Lemma firstOldEnough_cons (now : Z) (data : NpmPackageData) (u : string)
    (vs : list string) :
  firstOldEnough now data (u :: vs)
  = if oldEnough now data u then Some (u, daysOldOf now data u)
    else firstOldEnough now data vs.
Proof. reflexivity. Qed.

(** The loop returns the first version that is old enough. *)
Lemma firstOldEnough_Some (now : Z) (data : NpmPackageData) (vs : list string)
    (v : string) (d : JS.JSNum) :
  firstOldEnough now data vs = Some (v, d) ->
  d = daysOldOf now data v /\
  exists pre post,
    vs = (pre ++ v :: post)%list /\
    Forall (fun u => oldEnough now data u = false) pre /\
    oldEnough now data v = true.
Proof.
  induction vs as [|u vs IH]; [discriminate|].
  rewrite firstOldEnough_cons. destruct (oldEnough now data u) eqn:E.
  - intros [= <- <-]. split; [reflexivity|]. now exists [], vs.
  - intros (Hd & pre & post & -> & Hpre & Hv)%IH. split; [exact Hd|].
    exists (u :: pre), post. repeat split; [|exact Hv]. now constructor.
Qed.

Lemma firstOldEnough_None (now : Z) (data : NpmPackageData) (vs : list string) :
  firstOldEnough now data vs = None ->
  Forall (fun u => oldEnough now data u = false) vs.
Proof.
  induction vs as [|u vs IH]; [constructor|].
  rewrite firstOldEnough_cons. destruct (oldEnough now data u) eqn:E; [discriminate|].
  intros H. constructor; auto.
Qed.

(** What the [try] block of the fallback returns when it does not throw. *)
Lemma tryStableFallback_Some (pkg : string) (now : Z)
    (r : JS.FetchOutcome NpmPackageData) (res : VersionResult) :
  tryStableFallback pkg now r = Some res ->
  exists data v,
    JS.jsonOf r = Some data /\
    In v (stableVersions data) /\
    version res = "^" ++ v /\
    usedFallback res = Some true.
Proof.
  unfold tryStableFallback. destruct (JS.jsonOf r) as [data|]; simpl; [|discriminate].
  destruct (stableVersions data) as [|newest rest] eqn:Es; [discriminate|].
  destruct (firstOldEnough now data (newest :: rest)) as [[v d]|] eqn:Ef.
  - intros [= <-]. exists data, v. rewrite Es. repeat split.
    apply firstOldEnough_Some in Ef as (_ & pre & post & -> & _).
    apply in_or_app. right. now left.
  - intros [= <-]. exists data, newest. rewrite Es. repeat split. now left.
Qed.

(** A version is old enough exactly when the document has a publish time
    for it that is a date, and at least 30 whole days of 86400000
    milliseconds lie between that time and the clock. *)
Lemma oldEnough_iff (now : Z) (data : NpmPackageData) (v : string) :
  oldEnough now data v = true <->
  exists t, data_time data !! v = Some (JS.DateAt t) /\
            (30 <= (now - t) / 86400000)%Z.
Proof.
  unfold oldEnough, daysOldOf, publishedAt.
  destruct (data_time data !! v) as [[|t]|]; cbv [default from_option id JS.daysSince JS.ge].
  - split; [discriminate | intros (t & [=] & _)].
  - change JS.MS_PER_DAY with 86400000%Z. rewrite Z.leb_le. split.
    + intros H. now exists t.
    + now intros (t' & [= <-] & H).
  - rewrite Z.sub_diag. split; [discriminate | intros (t & [=] & _)].
Qed.

Lemma oldEnough_days (now : Z) (data : NpmPackageData) (v : string) (t : Z) :
  data_time data !! v = Some (JS.DateAt t) ->
  daysOldOf now data v = JS.Num ((now - t) / 86400000)%Z.
Proof. unfold daysOldOf, publishedAt. now intros ->. Qed.

(** C4. Given a registry document, whose versions have safe integers as
    numeric identifiers, the first fallback keeps exactly the versions that
    match [\d+\.\d+\.\d+], in descending order of major, then minor, then
    patch compared as numbers (so [1.10.0] is newer than [1.9.0]), and
    returns the first of them whose age is at least 30 whole days, with a
    caret and [usedFallback = true]: the age of a version is the time from
    its publish time to the clock, in days of 86400000 milliseconds, rounded
    down, and a version without a publish time that is a date has no such
    age. When no kept version is that old it returns the newest kept version,
    tagged the same way. Both messages are informational. With no stable
    version at all the result is the last resort. *)
Theorem stable_fallback_selection (pkg : string) (now : Z) (status : nat)
    (data : NpmPackageData) :
  Forall safeVersion (data_versions data) ->
  let sorted := stableVersions data in
  let result := getStableFallbackVersion pkg now (JS.Responded true status (Some data)) in
  let aged v days :=
    exists t, data_time data !! v = Some (JS.DateAt t) /\
              days = ((now - t) / 86400000)%Z /\ (30 <= days)%Z in
  (forall v, In v sorted <-> In v (data_versions data) /\ semverTest v = true) /\
  StronglySorted newerOrEqual sorted /\
  compareVersions "1.10.0" "1.9.0" = 1%Z /\
  match sorted with
  | [] => result = lastResort pkg
  | newest :: _ =>
      usedFallback result = Some true /\
      (exists w, warning result = Some w /\ JS.startsWith w "ℹ️  Using" = true) /\
      ((exists pre v post days,
          sorted = (pre ++ v :: post)%list /\
          Forall (fun u => forall d, ~ aged u d) pre /\
          aged v days /\
          result = {| version := "^" ++ v;
                      usedFallback := Some true;
                      warning := Some ("ℹ️  Using stable fallback: " ++ pkg ++ "@" ++ v
                                       ++ " (" ++ JS.showZ days ++ " days old)") |})
       \/
       (Forall (fun u => forall d, ~ aged u d) sorted /\
        result = {| version := "^" ++ newest;
                    usedFallback := Some true;
                    warning := Some ("ℹ️  Using fallback: " ++ pkg ++ "@" ++ newest) |}))
  end.
Proof.
  intros _ sorted result aged.
  assert (Hyoung : forall l, Forall (fun u => oldEnough now data u = false) l ->
                             Forall (fun u => forall d, ~ aged u d) l).
  { intros l Hl. eapply List.Forall_impl; [|exact Hl].
    intros u Hu d (t & Ht & -> & Hd).
    assert (oldEnough now data u = true) by (apply oldEnough_iff; eauto).
    congruence. }
  split; [apply stableVersions_In|].
  split; [apply stableVersions_sorted|].
  split; [reflexivity|].
  subst result. unfold getStableFallbackVersion, tryStableFallback.
  simpl JS.jsonOf. cbn [mbind option_bind]. fold sorted.
  destruct sorted as [|newest rest] eqn:Es; [reflexivity|].
  destruct (firstOldEnough now data (newest :: rest)) as [[v d]|] eqn:Ef; simpl.
  - split; [reflexivity|]. split; [eexists; split; reflexivity|]. left.
    apply firstOldEnough_Some in Ef as (Hd & pre & post & E & Hpre & Hv).
    apply oldEnough_iff in Hv as (t & Ht & H30).
    exists pre, v, post, ((now - t) / 86400000)%Z.
    split; [exact E|]. split; [now apply Hyoung|].
    split; [now exists t|].
    rewrite Hd, (oldEnough_days _ _ _ _ Ht). reflexivity.
  - split; [reflexivity|]. split; [eexists; split; reflexivity|]. right.
    split; [|reflexivity]. now apply Hyoung, firstOldEnough_None.
Qed.

Lemma stable_fallback_selection_witness :
  Forall safeVersion (data_versions sampleDocument) /\
  StronglySorted newerOrEqual (stableVersions sampleDocument) /\
  version (getStableFallbackVersion "vitest" (JS.dateUTC 2025 1 15)
             (JS.Responded true 200 (Some sampleDocument))) = "^2.10.0".
Proof.
  assert (H : Forall safeVersion (data_versions sampleDocument)).
  { repeat (apply Forall_cons_2;
              [intros a b c E; vm_compute in E; try discriminate E;
               injection E as <- <- <-; vm_compute; repeat split; discriminate|]).
    apply Forall_nil_2. }
  split; [exact H|]. split; [|reflexivity].
  exact (proj1 (proj2 (stable_fallback_selection "vitest" (JS.dateUTC 2025 1 15)
                         200 sampleDocument H))).
Defined.

(** *** The whole resolution *)

(** The first query fails on a network error, a timeout, a status that is
    not OK, or a body that cannot be read. *)
Lemma tryLatest_fetch_failure (pkg : string) (now : Z)
    (latest : JS.FetchOutcome NpmPackageData) :
  JS.jsonOf latest = None -> tryLatest pkg now latest = None.
Proof. unfold tryLatest. now intros ->. Qed.

Lemma jsonOf_failures {A} (status : nat) (body : option A) :
  JS.jsonOf (@JS.NetworkError A) = None /\
  JS.jsonOf (@JS.TimedOut A) = None /\
  JS.jsonOf (JS.Responded false status body) = None /\
  JS.jsonOf (JS.Responded true status (@None A)) = None.
Proof. repeat split. Qed.

(** C3. The resolution is a total function of the package name, the clock
    and what the two registry queries do, so it always returns a result.
    Whenever the first query fails, the result has [usedFallback = true] and
    its version is a caret followed by a stable version, or [latest]. When
    the second query fails as well, the result is exactly [latest] with
    [usedFallback = true] and a warning that contains [Could not fetch]. *)
Theorem resolution_failure_paths (pkg : string) (now : Z)
    (latest full : JS.FetchOutcome NpmPackageData) :
  tryLatest pkg now latest = None ->
  let result := getLatestVersionWithFallback pkg now latest full in
  (usedFallback result = Some true /\
   (isCaretSemver (version result) = true \/ version result = "latest")) /\
  (JS.jsonOf full = None ->
   version result = "latest" /\
   usedFallback result = Some true /\
   exists w, warning result = Some w /\ JS.includes "Could not fetch" w = true).
Proof.
  intros Hfail result. subst result.
  unfold getLatestVersionWithFallback. rewrite Hfail.
  unfold getStableFallbackVersion. split.
  - destruct (tryStableFallback pkg now full) as [res|] eqn:E; simpl.
    + apply tryStableFallback_Some in E as (data & v & _ & Hv & -> & ->).
      split; [reflexivity|]. left. simpl.
      now apply stableVersions_In in Hv as [_ Hv].
    + split; [reflexivity|]. now right.
  - intros Hfull. unfold tryStableFallback. rewrite Hfull. simpl.
    repeat split. eexists. split; [reflexivity|].
    apply includes_spec. exists "⚠️  ". eexists. reflexivity.
Qed.

Lemma resolution_failure_paths_witness :
  tryLatest "left-pad-9999-fake" 0 JS.TimedOut = None /\
  JS.jsonOf (@JS.NetworkError NpmPackageData) = None /\
  version (getLatestVersionWithFallback "left-pad-9999-fake" 0
             JS.TimedOut JS.NetworkError) = "latest" /\
  usedFallback (getLatestVersionWithFallback "left-pad-9999-fake" 0
                  JS.TimedOut JS.NetworkError) = Some true /\
  exists w,
    warning (getLatestVersionWithFallback "left-pad-9999-fake" 0
               JS.TimedOut JS.NetworkError) = Some w /\
    JS.includes "Could not fetch" w = true.
Proof.
  split; [reflexivity|]. split; [reflexivity|].
  apply (proj2 (resolution_failure_paths "left-pad-9999-fake" 0 JS.TimedOut
                  JS.NetworkError eq_refl)).
  reflexivity.
Defined.

End VersionFacts.

(** ** The Node.js LTS fetcher *)

Section NodeFacts.

Import NodeFetcher.

(** The dates of the EOL table, as time values. *)
Lemma EOL_DATES_values :
  EOL_DATES !! 16%Z = Some 1694390400000%Z /\
  EOL_DATES !! 18%Z = Some 1745971200000%Z /\
  EOL_DATES !! 20%Z = Some 1777507200000%Z /\
  EOL_DATES !! 22%Z = Some 1809043200000%Z /\
  EOL_DATES !! 24%Z = Some 1840665600000%Z /\
  EOL_DATES !! 26%Z = Some 1872201600000%Z.
Proof. repeat split; vm_compute; reflexivity. Qed.

(** A major version is past its end of life exactly when the table has a
    date for it that lies before now; a major that the table does not list
    is still active. *)
Lemma isPastEOL_iff (now m : Z) :
  isPastEOL now m = true <-> exists eol, EOL_DATES !! m = Some eol /\ (eol < now)%Z.
Proof.
  unfold isPastEOL. destruct (EOL_DATES !! m) as [eol|].
  - rewrite Z.ltb_lt. split; [eauto|]. now intros (? & [= <-] & ?).
  - split; [discriminate|]. now intros (? & [=] & _).
Qed.

Lemma isPastEOL_unlisted (now m : Z) :
  EOL_DATES !! m = None -> isPastEOL now m = false.
Proof. unfold isPastEOL. now intros ->. Qed.

(** The majors kept: those of the LTS entries, positive and not past their
    end of life. *)
Lemma ltsVersions_In (now : Z) (versions : list NodeDistVersion) (m : Z) :
  In m (ltsVersions now versions) <->
  (exists entry, In entry versions /\ lts entry <> None /\ majorOf (version entry) = m)
  /\ (0 < m)%Z /\ isPastEOL now m = false.
Proof.
  unfold ltsVersions.
  rewrite sortBy_In, unique_In, filter_In, in_map_iff, andb_true_iff,
    Z.ltb_lt, negb_true_iff.
  split.
  - intros [[(e & He & Hin%filter_In) H] _]. destruct Hin as [Hin Hlts].
    apply bool_decide_eq_true in Hlts. split; [|exact H]. now exists e.
  - intros [(e & Hin & Hlts & He) H]. split; [|intros []]. split; [|exact H].
    exists e. split; [exact He|]. apply filter_In. split; [exact Hin|].
    now apply bool_decide_eq_true.
Qed.

Lemma ltsVersions_NoDup (now : Z) (versions : list NodeDistVersion) :
  NoDup (ltsVersions now versions).
Proof.
  unfold ltsVersions. rewrite sortBy_Permutation. apply unique_NoDup.
Qed.

Lemma descending_strict (l : list Z) :
  NoDup l -> StronglySorted (fun a b => b <= a)%Z l ->
  StronglySorted (fun a b => b < a)%Z l.
Proof.
  intros Hnd Hs. induction Hs as [|x l Hs IH Hx]; [constructor|].
  apply NoDup_cons in Hnd as [Hx' Hnd]. constructor; [now apply IH|].
  rewrite List.Forall_forall in *. intros y Hy.
  assert (x <> y) by (intros ->; now apply Hx', list_elem_of_In).
  specialize (Hx y Hy). lia.
Qed.

(** The majors are in strictly descending order. *)
Lemma ltsVersions_sorted (now : Z) (versions : list NodeDistVersion) :
  StronglySorted (fun a b => b < a)%Z (ltsVersions now versions).
Proof.
  apply descending_strict; [apply ltsVersions_NoDup|].
  unfold ltsVersions.
  apply StronglySorted_weaken
    with (R := JS.before (fun a b => b - a)%Z) (P := fun _ => True);
    [unfold JS.before; intros; lia | now apply List.Forall_forall |].
  apply sortBy_sorted with (P := fun _ => True);
    [unfold JS.before; intros; lia | unfold JS.before; intros; lia
    | now apply List.Forall_forall].
Qed.

(** C6. From a fetched list of releases the resolver keeps the majors of
    the LTS entries that are not past their end of life in the table (a
    major that the table does not list counts as active), without
    duplicates and in descending order. [ciMatrix] is the first two of
    them, [latestLTS] the first, [minimum] the second when there are two
    and [latestLTS] otherwise, and [engines] is [>=minimum.0.0]. When the
    fetch fails, or no major is left, the result is the static fallback
    as a whole: minimum 20, matrix 20 and 22, latest LTS 22. *)
Theorem lts_resolution (now : Z) (status : nat) (versions : list NodeDistVersion)
    (failed : JS.FetchOutcome (list NodeDistVersion)) :
  JS.jsonOf failed = None ->
  let majors := ltsVersions now versions in
  let config := getNodeLTSVersions now (JS.Responded true status (Some versions)) in
  (forall m, In m majors <->
     (exists entry, In entry versions /\ lts entry <> None
                    /\ majorOf (version entry) = m)
     /\ (0 < m)%Z /\ isPastEOL now m = false) /\
  (forall m, isPastEOL now m = true <->
     exists eol, EOL_DATES !! m = Some eol /\ (eol < now)%Z) /\
  NoDup majors /\
  StronglySorted (fun a b => b < a)%Z majors /\
  match majors with
  | [] => config = FALLBACK_NODE_CONFIG
  | [a] =>
      config = {| minimum := a; engines := ">=" ++ JS.showZ a ++ ".0.0";
                  ciMatrix := [a]; latestLTS := a |}
  | a :: b :: _ =>
      config = {| minimum := b; engines := ">=" ++ JS.showZ b ++ ".0.0";
                  ciMatrix := [a; b]; latestLTS := a |}
  end /\
  getNodeLTSVersions now failed = FALLBACK_NODE_CONFIG /\
  FALLBACK_NODE_CONFIG = {| minimum := 20; engines := ">=20.0.0";
                            ciMatrix := [20; 22]%Z; latestLTS := 22 |}.
Proof.
  intros Hfailed majors config.
  split; [apply ltsVersions_In|].
  split; [apply isPastEOL_iff|].
  split; [apply ltsVersions_NoDup|].
  split; [apply ltsVersions_sorted|].
  split; [|split; [|reflexivity]].
  - subst config majors. cbv [getNodeLTSVersions JS.jsonOf].
    destruct (ltsVersions now versions) as [|a [|b rest]]; reflexivity.
  - unfold getNodeLTSVersions. now rewrite Hfailed.
Qed.

Lemma lts_resolution_witness :
  JS.jsonOf (@JS.TimedOut (list NodeDistVersion)) = None /\
  getNodeLTSVersions sampleNow (JS.Responded true 200 (Some sampleIndex))
  = {| minimum := 20; engines := ">=20.0.0"; ciMatrix := [22; 20]%Z;
       latestLTS := 22 |} /\
  getNodeLTSVersions sampleNow JS.TimedOut = FALLBACK_NODE_CONFIG.
Proof.
  split; [reflexivity|].
  destruct (lts_resolution sampleNow 200 sampleIndex JS.TimedOut eq_refl)
    as (_ & _ & _ & _ & Hconfig & Hfallback & _).
  split; [exact Hconfig | exact Hfallback].
Defined.

End NodeFacts.

(** ** Worked examples *)

Section Examples.

Import VersionFetcher.

(** The regular expression accepts plain [x.y.z] only. *)
Example semverTest_examples :
  semverTest "1.2.3" = true /\
  semverTest "10.0.12" = true /\
  semverTest "1.2.3-beta.1" = false /\
  semverTest "1.2" = false /\
  semverTest "1.2.3.4" = false /\
  semverTest "v1.2.3" = false /\
  semverTest "1..3" = false.
Proof. repeat split. Qed.

(** Components compare as numbers: as strings, [1.9.0] would come after
    [1.10.0]. *)
Example compareVersions_examples :
  compareVersions "1.10.0" "1.9.0" = 1%Z /\
  compareVersions "2.0.0" "10.0.0" = (-1)%Z /\
  compareVersions "1.2.3" "1.2.3" = 0%Z /\
  compareVersions "1.2.3" "01.2.3" = 0%Z.
Proof. repeat split. Qed.

Example stableVersions_example :
  stableVersions sampleDocument = ["3.0.0"; "2.10.0"; "2.9.1"].
Proof. reflexivity. Qed.

Example fallback_example :
  let result :=
    getLatestVersionWithFallback "vitest" (JS.dateUTC 2025 1 15)
      (JS.Responded false 503 None) (JS.Responded true 200 (Some sampleDocument)) in
  version result = "^2.10.0" /\ usedFallback result = Some true.
Proof. vm_compute. split; reflexivity. Qed.

Example primary_example :
  let result :=
    getLatestVersionWithFallback "vitest" (JS.dateUTC 2025 1 15)
      (JS.Responded true 200 (Some sampleDocument)) JS.NetworkError in
  version result = "^3.0.0" /\ usedFallback result = None /\
  exists w, warning result = Some w /\
    JS.includes "downgrade: npm install vitest@2" w = true.
Proof. vm_compute. repeat split. eexists. split; reflexivity. Qed.

(** The release index of 2025-01-15: 16 is past its end of life and is
    left out of the matrix. *)
Example ltsVersions_example :
  NodeFetcher.ltsVersions NodeFetcher.sampleNow NodeFetcher.sampleIndex
  = [22; 20; 18]%Z.
Proof. vm_compute. reflexivity. Qed.

Example dual_manifest_example :
  let pkg := Generators.generatePackageJson dualConfig in
  pkg !! "type" = Some (Generators.FString "module") /\
  pkg !! "main" = Some (Generators.FString "./dist/index.js") /\
  pkg !! "module" = Some (Generators.FString "./dist/index.mjs") /\
  Generators.generateScripts dualConfig !! "test" = Some "vitest run".
Proof. repeat split. Qed.

Example dual_workflow_example :
  JS.includes "codecov"
    (Workflows.generateCIWorkflow dualConfig NodeFetcher.FALLBACK_NODE_CONFIG ∅)
  = false.
Proof. vm_compute. reflexivity. Qed.

End Examples.

(** ** Decimal numerals *)

Section DecimalFacts.

Lemma allDigits_uint (d : Decimal.uint) :
  JS.allDigits (NilEmpty.string_of_uint d) = true.
Proof. induction d; simpl; auto. Qed.

(** The accumulator of [Pos.of_uint_acc], started from any natural number. *)
Lemma digitsValue_uint (d : Decimal.uint) (a : N) :
  JS.digitsValue (Z.of_N a) (NilEmpty.string_of_uint d)
  = Z.of_N (match a with
            | N0 => Pos.of_uint d
            | Npos p => Npos (Pos.of_uint_acc d p)
            end).
Proof.
  revert a; induction d; intros a;
    cbn [NilEmpty.string_of_uint JS.digitsValue]; [now destruct a| ..];
    match goal with
    | |- JS.digitsValue (10 * Z.of_N a + JS.digitValue ?c)%Z _ = _ =>
        let k := eval vm_compute in (Z.to_N (JS.digitValue c)) in
        replace (10 * Z.of_N a + JS.digitValue c)%Z
          with (Z.of_N (k + 10 * a)%N)
          by (change (JS.digitValue c) with (Z.of_N k); lia)
    end;
    rewrite IHd; destruct a; reflexivity.
Qed.

Lemma showZ_nonneg (z : Z) :
  (0 <= z)%Z ->
  JS.allDigits (JS.showZ z) = true /\
  JS.showZ z <> EmptyString /\
  JS.digitsValue 0 (JS.showZ z) = z.
Proof.
  intros Hz. unfold JS.showZ. destruct z as [|p|p]; [now repeat split | | lia].
  cbn [Z.to_int NilZero.string_of_int].
  assert (Hne : Pos.to_uint p <> Decimal.Nil).
  { intros E. pose proof (DecimalPos.Unsigned.of_to p) as H.
    rewrite E in H. discriminate H. }
  assert (E : NilZero.string_of_uint (Pos.to_uint p)
              = NilEmpty.string_of_uint (Pos.to_uint p))
    by (unfold NilZero.string_of_uint; now destruct (Pos.to_uint p)).
  rewrite E. split; [apply allDigits_uint|]. split.
  - destruct (Pos.to_uint p); [congruence | discriminate ..].
  - rewrite (digitsValue_uint _ 0%N), DecimalPos.Unsigned.of_to. reflexivity.
Qed.

(** The leading digits of a numeral followed by something that is no
    digit are the numeral. *)
Lemma takeDigits_app (ds rest : string) :
  JS.allDigits ds = true ->
  NodeFetcher.takeDigits rest = EmptyString ->
  NodeFetcher.takeDigits (ds ++ rest) = ds.
Proof.
  intros Hds Hrest. induction ds as [|c ds IH]; [exact Hrest|].
  simpl in Hds. apply andb_true_iff in Hds as [Hc Hds].
  change (String c ds ++ rest) with (String c (ds ++ rest)).
  cbn [NodeFetcher.takeDigits]. now rewrite Hc, IH.
Qed.

End DecimalFacts.

(** ** The actions fetcher *)

Section ActionsFacts.

Import ActionsFetcher.

Lemma isDigit_not_v (c : ascii) : JS.isDigit c = true -> Ascii.eqb c "v" = false.
Proof. destruct c as [[] [] [] [] [] [] [] []]; (discriminate || reflexivity). Qed.

Lemma major_tag_of_number (z : Z) :
  (0 <= z)%Z -> isMajorTag ("v" ++ JS.showZ z) = true.
Proof.
  intros (Hd & Hne & _)%showZ_nonneg.
  change ("v" ++ JS.showZ z) with (String "v" (JS.showZ z)).
  unfold isMajorTag. rewrite Hd. simpl.
  destruct (JS.showZ z); [congruence | reflexivity].
Qed.

(** X5. A tag made of [v], a major number that is a non-negative safe
    integer and anything that does not start with a digit parses back to
    that number, with [extractMajorVersion] (where the [v] is optional) and
    with the [majorOf] of the Node.js fetcher. *)
Theorem major_of_tag_round_trip (n : Z) (rest : string) :
  (0 <= n <= JS.MAX_SAFE_INTEGER)%Z ->
  NodeFetcher.takeDigits rest = EmptyString ->
  extractMajorVersion ("v" ++ JS.showZ n ++ rest) = Some n /\
  extractMajorVersion (JS.showZ n ++ rest) = Some n /\
  NodeFetcher.majorOf ("v" ++ JS.showZ n ++ rest) = n.
Proof.
  intros [(Hd & Hne & Hv)%showZ_nonneg _] Hrest.
  pose proof (takeDigits_app _ _ Hd Hrest) as Htake.
  change ("v" ++ JS.showZ n ++ rest) with (String "v" (JS.showZ n ++ rest)).
  unfold extractMajorVersion, NodeFetcher.majorOf. cbn [Ascii.eqb Bool.eqb].
  rewrite Htake.
  destruct (JS.showZ n) as [|c ds] eqn:E; [congruence|].
  split; [now rewrite Hv|]. split; [|exact Hv].
  change (String c ds ++ rest) with (String c (ds ++ rest)) in *.
  simpl in Hd. apply andb_true_iff in Hd as [Hc _].
  rewrite (isDigit_not_v c Hc), Htake. now rewrite Hv.
Qed.

Lemma major_of_tag_round_trip_witness :
  (0 <= 6 <= JS.MAX_SAFE_INTEGER)%Z /\ NodeFetcher.takeDigits ".0.1" = EmptyString /\
  extractMajorVersion "v6.0.1" = Some 6%Z.
Proof.
  assert (H : (0 <= 6 <= JS.MAX_SAFE_INTEGER)%Z) by (vm_compute; split; discriminate).
  split; [exact H|]. split; [reflexivity|].
  exact (proj1 (major_of_tag_round_trip 6 ".0.1" H eq_refl)).
Defined.

Lemma raiseMajor_ge (h : Z) (r : GitHubRelease) : (h <= raiseMajor h r)%Z.
Proof.
  unfold raiseMajor. destruct (extractMajorVersion _); [|lia].
  destruct (Z.ltb_spec h z); lia.
Qed.

Lemma highest_ge_start (l : list GitHubRelease) (h : Z) :
  (h <= fold_left raiseMajor l h)%Z.
Proof.
  revert h; induction l as [|r l IH]; intros h; simpl; [lia|].
  pose proof (raiseMajor_ge h r). specialize (IH (raiseMajor h r)). lia.
Qed.

Lemma highest_upper (l : list GitHubRelease) (h : Z) (r : GitHubRelease) (m : Z) :
  In r l -> extractMajorVersion (tag_name r) = Some m ->
  (m <= fold_left raiseMajor l h)%Z.
Proof.
  revert h; induction l as [|x l IH]; intros h; simpl; [intros []|].
  intros [->|Hin] Hm; [|now apply IH].
  pose proof (highest_ge_start l (raiseMajor h r)) as H.
  assert (m <= raiseMajor h r)%Z; [|lia].
  unfold raiseMajor. rewrite Hm. destruct (Z.ltb_spec h m); lia.
Qed.

Lemma highest_attained (l : list GitHubRelease) (h : Z) :
  fold_left raiseMajor l h = h \/
  exists r, In r l /\ extractMajorVersion (tag_name r) = Some (fold_left raiseMajor l h).
Proof.
  revert h; induction l as [|x l IH]; intros h; simpl; [now left|].
  destruct (IH (raiseMajor h x)) as [E|(r & Hin & Hr)].
  - rewrite E. unfold raiseMajor.
    destruct (extractMajorVersion (tag_name x)) as [m|] eqn:Hm; [|now left].
    destruct (Z.ltb_spec h m); [|now left].
    right. exists x. split; [now left | exact Hm].
  - right. exists r. split; [now right | exact Hr].
Qed.

(** X1. Whatever the releases request does, and whatever releases with
    safe integers as major numbers it lists, the version that
    [fetchLatestMajorVersion] returns is a major tag: [v] followed by a
    number. *)
Theorem fetched_action_version_is_major_tag (owner repo : string)
    (r : JS.FetchOutcome (list GitHubRelease)) :
  (forall releases, JS.jsonOf r = Some releases -> safeReleases releases) ->
  isMajorTag (version (fetchLatestMajorVersion owner repo r)) = true.
Proof.
  intros _. unfold fetchLatestMajorVersion, tryLatestMajor.
  destruct (JS.jsonOf r) as [releases|]; [|reflexivity]. cbn [mbind option_bind].
  destruct (List.filter isStableRelease releases) as [|x l] eqn:E; [reflexivity|].
  destruct (highestMajorOf (x :: l) =? 0)%Z; [reflexivity|].
  cbn [default version]. apply major_tag_of_number, highest_ge_start.
Qed.

Lemma fetched_action_version_is_major_tag_witness :
  let releases :=
    [ {| tag_name := "v6.0.1"; published_at := EmptyString;
         prerelease := false; draft := false |};
      {| tag_name := "nightly"; published_at := EmptyString;
         prerelease := false; draft := false |} ] in
  (forall releases', JS.jsonOf (JS.Responded true 200 (Some releases)) = Some releases' ->
     safeReleases releases') /\
  isMajorTag (version (fetchLatestMajorVersion "actions" "setup-node"
                         (JS.Responded true 200 (Some releases)))) = true.
Proof.
  intros releases.
  assert (H : forall releases',
            JS.jsonOf (JS.Responded true 200 (Some releases)) = Some releases' ->
            safeReleases releases').
  { intros ? [= <-] release m [<-|[<-|[]]] _ E; vm_compute in E; try discriminate E.
    injection E as <-. vm_compute. discriminate. }
  split; [exact H|].
  exact (fetched_action_version_is_major_tag "actions" "setup-node" _ H).
Defined.

(** X2. When [fetchLatestMajorVersion] does not fall back, on releases
    with safe integers as major numbers, its version is [v] and the highest
    major number among the releases that are neither drafts nor
    pre-releases: some such release has that major, none has a higher one,
    and the number is positive. *)
Theorem fetched_action_version_is_highest (owner repo : string)
    (r : JS.FetchOutcome (list GitHubRelease)) :
  (forall releases, JS.jsonOf r = Some releases -> safeReleases releases) ->
  usedFallback (fetchLatestMajorVersion owner repo r) = None ->
  exists releases highest,
    JS.jsonOf r = Some releases /\
    version (fetchLatestMajorVersion owner repo r) = "v" ++ JS.showZ highest /\
    (0 < highest)%Z /\
    (exists release, In release releases /\ draft release = false /\
       prerelease release = false /\
       extractMajorVersion (tag_name release) = Some highest) /\
    (forall release m, In release releases -> draft release = false ->
       prerelease release = false ->
       extractMajorVersion (tag_name release) = Some m -> (m <= highest)%Z).
Proof.
  intros _. unfold fetchLatestMajorVersion, tryLatestMajor.
  destruct (JS.jsonOf r) as [releases|]; [|discriminate]. cbn [mbind option_bind].
  assert (Hstable : forall x, In x (List.filter isStableRelease releases) <->
            In x releases /\ draft x = false /\ prerelease x = false).
  { intros x. rewrite filter_In. unfold isStableRelease.
    rewrite andb_true_iff, !negb_true_iff. tauto. }
  destruct (List.filter isStableRelease releases) as [|x l] eqn:E; [discriminate|].
  destruct (Z.eqb_spec (highestMajorOf (x :: l)) 0) as [|Hne]; [discriminate|].
  intros _. exists releases, (highestMajorOf (x :: l)).
  split; [reflexivity|]. split; [reflexivity|].
  pose proof (highest_ge_start (x :: l) 0) as Hge. fold (highestMajorOf (x :: l)) in Hge.
  split; [lia|]. split.
  - destruct (highest_attained (x :: l) 0) as [E0|(rel & Hin & Hrel)];
      [unfold highestMajorOf in Hne; congruence|].
    exists rel. apply Hstable in Hin as (? & ? & ?). now repeat split.
  - intros rel m Hin Hd Hp Hm. apply (highest_upper (x :: l) 0 rel m); [|exact Hm].
    apply Hstable. now repeat split.
Qed.

Lemma fetched_action_version_is_highest_witness :
  let releases :=
    [ {| tag_name := "v7.0.0-beta"; published_at := EmptyString;
         prerelease := true; draft := false |};
      {| tag_name := "v6.0.1"; published_at := EmptyString;
         prerelease := false; draft := false |};
      {| tag_name := "v5.2"; published_at := EmptyString;
         prerelease := false; draft := false |} ] in
  let result := fetchLatestMajorVersion "actions" "setup-node"
                  (JS.Responded true 200 (Some releases)) in
  (forall releases', JS.jsonOf (JS.Responded true 200 (Some releases)) = Some releases' ->
     safeReleases releases') /\
  usedFallback result = None /\
  exists releases' highest,
    JS.jsonOf (JS.Responded true 200 (Some releases)) = Some releases' /\
    version result = "v" ++ JS.showZ highest /\ (0 < highest)%Z.
Proof.
  intros releases result.
  assert (H : forall releases',
            JS.jsonOf (JS.Responded true 200 (Some releases)) = Some releases' ->
            safeReleases releases').
  { intros ? [= <-] release m [<-|[<-|[<-|[]]]] _ E; vm_compute in E;
      injection E as <-; vm_compute; discriminate. }
  split; [exact H|]. split; [reflexivity|].
  destruct (fetched_action_version_is_highest "actions" "setup-node"
              (JS.Responded true 200 (Some releases)) H eq_refl)
    as (rs & h & H1 & H2 & H3 & _).
  now exists rs, h.
Defined.

(** X3. [fetchLatestMajorVersion] falls back to [v5], with
    [usedFallback = true] and a warning that names the repository, exactly
    when the request fails or no release that is neither a draft nor a
    pre-release has a positive major number: a repository with [v0.x]
    releases only gets [v5]. *)
Theorem action_fallback_iff (owner repo : string)
    (r : JS.FetchOutcome (list GitHubRelease)) :
  (fetchLatestMajorVersion owner repo r = conservativeDefault owner repo <->
   forall releases release m,
     JS.jsonOf r = Some releases -> In release releases ->
     draft release = false -> prerelease release = false ->
     extractMajorVersion (tag_name release) = Some m -> (m <= 0)%Z) /\
  version (conservativeDefault owner repo) = "v5" /\
  usedFallback (conservativeDefault owner repo) = Some true /\
  exists w, warning (conservativeDefault owner repo) = Some w /\
    JS.includes ("Could not fetch " ++ owner ++ "/" ++ repo) w = true.
Proof.
  split; [|repeat split; eexists; split; [reflexivity|];
           apply includes_spec; exists "⚠️  "; eexists; simpl;
           rewrite !append_assoc; reflexivity].
  split.
  - intros Hres releases rel m Hjson Hin Hd Hp Hm.
    destruct (usedFallback (fetchLatestMajorVersion owner repo r)) eqn:Hu.
    + revert Hu Hres. unfold fetchLatestMajorVersion, tryLatestMajor.
      rewrite Hjson. cbn [mbind option_bind].
      destruct (List.filter isStableRelease releases) as [|x l] eqn:E.
      * assert (Hf : In rel (List.filter isStableRelease releases)).
        { apply filter_In. unfold isStableRelease. now rewrite Hd, Hp. }
        rewrite E in Hf. destruct Hf.
      * destruct (Z.eqb_spec (highestMajorOf (x :: l)) 0) as [E0|Hne];
          [|discriminate].
        intros _ _. rewrite <- E0. apply (highest_upper (x :: l) 0 rel m); [|exact Hm].
        rewrite <- E. apply filter_In. unfold isStableRelease. now rewrite Hd, Hp.
    + rewrite Hres in Hu. discriminate Hu.
  - intros Hall. unfold fetchLatestMajorVersion, tryLatestMajor.
    destruct (JS.jsonOf r) as [releases|]; [|reflexivity]. cbn [mbind option_bind].
    destruct (List.filter isStableRelease releases) as [|x l] eqn:E; [reflexivity|].
    destruct (Z.eqb_spec (highestMajorOf (x :: l)) 0) as [E0|Hne]; [reflexivity|].
    exfalso.
    pose proof (highest_ge_start (x :: l) 0) as Hge.
    destruct (highest_attained (x :: l) 0) as [E1|(rel & Hin & Hrel)];
      [unfold highestMajorOf in Hne; congruence|].
    rewrite <- E in Hin. apply filter_In in Hin as [Hin Hst].
    unfold isStableRelease in Hst.
    apply andb_true_iff in Hst as [Hd%negb_true_iff Hp%negb_true_iff].
    specialize (Hall releases rel _ eq_refl Hin Hd Hp Hrel).
    unfold highestMajorOf in Hne. lia.
Qed.

End ActionsFacts.

(** ** Workflows built from fetched action versions *)

Section FetchedActions.

Import ActionsFetcher Workflows.

Variable github : string -> string -> JS.FetchOutcome (list GitHubRelease).

Let fetched (owner repo : string) : ActionVersionResult :=
  fetchLatestMajorVersion owner repo (github owner repo).

Lemma tryLatestMajor_tag (r : JS.FetchOutcome (list GitHubRelease))
    (res : ActionVersionResult) :
  tryLatestMajor r = Some res -> isMajorTag (version res) = true.
Proof.
  unfold tryLatestMajor.
  destruct (JS.jsonOf r) as [releases|]; [|discriminate]. cbn [mbind option_bind].
  destruct (List.filter isStableRelease releases) as [|x l]; [discriminate|].
  destruct (highestMajorOf (x :: l) =? 0)%Z; [discriminate|].
  intros [= <-]. apply major_tag_of_number, highest_ge_start.
Qed.

Lemma fetched_is_tag (owner repo : string) :
  isMajorTag (version (fetched owner repo)) = true.
Proof.
  unfold fetched, fetchLatestMajorVersion.
  destruct (tryLatestMajor (github owner repo)) as [res|] eqn:E; [|reflexivity].
  now apply tryLatestMajor_tag in E.
Qed.

Lemma fetched_lookup (k : string) (r : ActionVersionResult) :
  fetchLatestActionVersions github !! k = Some r ->
  exists o p, r = fetched o p.
Proof.
  cbv [fetchLatestActionVersions JS.newMap SUPPORTED_ACTIONS map fold_left
       key owner repo fst snd].
  repeat (rewrite lookup_insert; case_decide;
          [intros [= <-]; eexists _, _; reflexivity|]).
  rewrite lookup_empty. discriminate.
Qed.

Lemma fetched_tags_only : majorTagsOnly (fetchLatestActionVersions github).
Proof. intros k r (o & p & ->)%fetched_lookup. apply fetched_is_tag. Qed.

(** X4. Whatever the releases requests do, the map that
    [fetchLatestActionVersions] returns has an entry for each of the four
    supported actions and for nothing else, the entry of an action is the
    result of its own request, and, the major numbers of the listed releases
    being safe integers, every version in the map is a major tag. *)
Theorem fetched_action_versions :
  (forall action releases,
     In action SUPPORTED_ACTIONS ->
     JS.jsonOf (github (owner action) (repo action)) = Some releases ->
     safeReleases releases) ->
  dom (fetchLatestActionVersions github)
  = {[ "actions/checkout"; "actions/setup-node"; "codecov/codecov-action";
       "dependabot/fetch-metadata" ]} /\
  (forall action, In action SUPPORTED_ACTIONS ->
     fetchLatestActionVersions github !! key action
     = Some (fetched (owner action) (repo action))) /\
  majorTagsOnly (fetchLatestActionVersions github).
Proof.
  intros _. split; [reflexivity|]. split.
  - intros action [<-|[<-|[<-|[<-|[]]]]]; reflexivity.
  - apply fetched_tags_only.
Qed.

Lemma actionVersion_fetched (k o p : string) :
  In {| owner := o; repo := p; key := k |} SUPPORTED_ACTIONS ->
  actionVersion (fetchLatestActionVersions github) k "v4" = version (fetched o p).
Proof.
  intros Hin. unfold actionVersion.
  assert (E : fetchLatestActionVersions github !! k = Some (fetched o p))
    by (destruct Hin as [[= <- <- <-]|[[= <- <- <-]|[[= <- <- <-]|[[= <- <- <-]|[]]]]];
        reflexivity).
  rewrite E. pose proof (fetched_is_tag o p) as Htag.
  now destruct (version (fetched o p)).
Qed.

Lemma checkout_steps_pushed (config : ProjectConfig)
    (nodeConfig : NodeFetcher.NodeVersionConfig)
    (av : gmap string ActionVersionResult) :
  In (checkoutStep (actionVersion av "actions/checkout" "v4"))
     (ciSteps config nodeConfig av) /\
  In (setupNodeStep (actionVersion av "actions/setup-node" "v4"))
     (ciSteps config nodeConfig av).
Proof.
  unfold ciSteps, JS.push.
  destruct (isTypescript (language config)), (useLinting config),
    (hasTests (testRunner config)), (useCodecov config);
    cbn [andb]; rewrite ?in_app_iff; cbn [In]; tauto.
Qed.

(** X6. In the CI and the CD workflow generated from the fetched action
    versions, checkout and setup-node are referenced at the versions that
    their own requests returned: the default [v4] of the generators is never
    used, whatever the requests do. The CI workflow then mentions the
    Codecov upload exactly when tests and Codecov are configured. *)
Theorem workflows_use_fetched_versions (config : ProjectConfig)
    (nodeConfig : NodeFetcher.NodeVersionConfig) :
  let av := fetchLatestActionVersions github in
  let checkout := "uses: actions/checkout@" ++ version (fetched "actions" "checkout") in
  let setupNode := "uses: actions/setup-node@" ++ version (fetched "actions" "setup-node") in
  JS.includes checkout (generateCIWorkflow config nodeConfig av) = true /\
  JS.includes setupNode (generateCIWorkflow config nodeConfig av) = true /\
  JS.includes checkout (generateCDWorkflow nodeConfig av) = true /\
  JS.includes setupNode (generateCDWorkflow nodeConfig av) = true /\
  (JS.includes "Upload coverage to Codecov" (generateCIWorkflow config nodeConfig av) = true
   <-> hasTests (testRunner config) && useCodecov config = true).
Proof.
  intros av checkout setupNode.
  assert (E1 : actionVersion av "actions/checkout" "v4"
               = version (fetched "actions" "checkout"))
    by (apply actionVersion_fetched; simpl; tauto).
  assert (E2 : actionVersion av "actions/setup-node" "v4"
               = version (fetched "actions" "setup-node"))
    by (apply actionVersion_fetched; simpl; tauto).
  destruct (checkout_steps_pushed config nodeConfig av) as [H1 H2].
  rewrite E1 in H1. rewrite E2 in H2.
  repeat split.
  - eapply includes_trans; [|apply step_in_workflow, H1].
    unfold checkoutStep. find_after "        ".
  - eapply includes_trans; [|apply step_in_workflow, H2].
    unfold setupNodeStep. find_after "        ".
  - unfold generateCDWorkflow. rewrite E1, E2. find_after "        ".
  - unfold generateCDWorkflow. rewrite E1, E2. find_after "        ".
  - apply workflow_mentions_codecov, fetched_tags_only.
  - apply workflow_mentions_codecov, fetched_tags_only.
Qed.

End FetchedActions.

Lemma fetched_action_versions_witness :
  let github (owner repo : string) :=
    JS.Responded true 200
      (Some [ {| ActionsFetcher.tag_name := "v6.0.1";
                 ActionsFetcher.published_at := EmptyString;
                 ActionsFetcher.prerelease := false;
                 ActionsFetcher.draft := false |} ]) in
  (forall action releases,
     In action ActionsFetcher.SUPPORTED_ACTIONS ->
     JS.jsonOf (github (ActionsFetcher.owner action) (ActionsFetcher.repo action))
     = Some releases ->
     ActionsFetcher.safeReleases releases) /\
  Workflows.majorTagsOnly (ActionsFetcher.fetchLatestActionVersions github).
Proof.
  intros github.
  assert (H : forall action releases,
            In action ActionsFetcher.SUPPORTED_ACTIONS ->
            JS.jsonOf (github (ActionsFetcher.owner action) (ActionsFetcher.repo action))
            = Some releases ->
            ActionsFetcher.safeReleases releases).
  { intros action ? _ [= <-] release m [<-|[]] _ E; vm_compute in E.
    injection E as <-. vm_compute. discriminate. }
  split; [exact H|].
  exact (proj2 (proj2 (fetched_action_versions github H))).
Defined.

(** ** More on the Node.js LTS fetcher *)

Section NodeInvariants.

Import NodeFetcher.

Lemma ltsVersions_positive (now : Z) (versions : list NodeDistVersion) (m : Z) :
  In m (ltsVersions now versions) -> (0 < m)%Z.
Proof. now intros (_ & H & _)%ltsVersions_In. Qed.

Ltac matrix_facts :=
  unfold wellFormed; cbn [ciMatrix minimum latestLTS engines length];
  repeat split;
  try lia; try (cbn [In]; tauto); try reflexivity;
  try (repeat (apply NoDup_cons_2; [rewrite list_elem_of_In; cbn [In]; lia|]);
       apply NoDup_nil_2);
  try (match goal with
       | H : In _ _ |- _ => cbn [In] in H; intuition lia
       end);
  try (cbn [count_occ]; repeat destruct (Z.eq_dec _ _); (lia || congruence)).

Lemma wellFormed_one (a : Z) :
  (0 < a)%Z ->
  wellFormed {| minimum := a; engines := ">=" ++ JS.showZ a ++ ".0.0";
                ciMatrix := [a]; latestLTS := a |}.
Proof. intros Ha. matrix_facts. Qed.

Lemma wellFormed_two (a b : Z) :
  (0 < b < a)%Z ->
  wellFormed {| minimum := b; engines := ">=" ++ JS.showZ b ++ ".0.0";
                ciMatrix := [a; b]; latestLTS := a |}.
Proof. intros Hab. matrix_facts. Qed.

Lemma wellFormed_fallback : wellFormed FALLBACK_NODE_CONFIG.
Proof. unfold FALLBACK_NODE_CONFIG. matrix_facts. Qed.

(** X7. Every configuration that [getNodeLTSVersions] returns, fallback
    or fetched from an index whose major numbers are safe integers, has a CI
    matrix of one or two distinct majors that contains
    [minimum], and [latestLTS] exactly once, with [0 < minimum <= latestLTS]
    and all matrix entries between the two, and an [engines] range built
    from [minimum]. So the Codecov gate on [latestLTS] selects exactly one
    entry of the matrix. *)
Theorem node_config_invariant (now : Z)
    (r : JS.FetchOutcome (list NodeDistVersion)) :
  (forall versions, JS.jsonOf r = Some versions -> safeIndex versions) ->
  wellFormed (getNodeLTSVersions now r).
Proof.
  intros _. unfold getNodeLTSVersions.
  destruct (JS.jsonOf r) as [versions|]; [|apply wellFormed_fallback].
  pose proof (ltsVersions_sorted now versions) as Hs.
  pose proof (ltsVersions_positive now versions) as Hpos.
  destruct (ltsVersions now versions) as [|a [|b rest]];
    [apply wellFormed_fallback | |].
  - apply wellFormed_one, Hpos. now left.
  - apply StronglySorted_inv in Hs as [_ Hab].
    apply Forall_cons in Hab as [Hab _].
    apply wellFormed_two. split; [|exact Hab]. apply Hpos. right. now left.
Qed.

Lemma node_config_invariant_witness :
  (forall versions, JS.jsonOf (JS.Responded true 200 (Some sampleIndex)) = Some versions ->
     safeIndex versions) /\
  wellFormed (getNodeLTSVersions sampleNow (JS.Responded true 200 (Some sampleIndex))).
Proof.
  assert (H : forall versions,
            JS.jsonOf (JS.Responded true 200 (Some sampleIndex)) = Some versions ->
            safeIndex versions).
  { intros ? [= <-]. repeat (apply Forall_cons_2; [vm_compute; discriminate|]).
    apply Forall_nil_2. }
  split; [exact H|].
  exact (node_config_invariant sampleNow _ H).
Defined.

(** X8. Time only removes majors: a major that is past its end of life
    stays so at any later time, and the majors kept at a later time were
    all kept before. *)
Theorem lts_versions_shrink_with_time (now later : Z)
    (versions : list NodeDistVersion) :
  (now <= later)%Z ->
  (forall m, isPastEOL now m = true -> isPastEOL later m = true) /\
  (forall m, In m (ltsVersions later versions) -> In m (ltsVersions now versions)).
Proof.
  intros Hle.
  assert (Hmono : forall m, isPastEOL now m = true -> isPastEOL later m = true).
  { intros m (eol & He & Hlt)%isPastEOL_iff. apply isPastEOL_iff.
    exists eol. split; [exact He | lia]. }
  split; [exact Hmono|].
  intros m (He & Hpos & Hlive)%ltsVersions_In. apply ltsVersions_In.
  repeat split; try assumption.
  destruct (isPastEOL now m) eqn:E; [|reflexivity].
  apply Hmono in E. congruence.
Qed.

Lemma lts_versions_shrink_with_time_witness :
  (sampleNow <= JS.dateUTC 2025 6 1)%Z /\
  (forall m, In m (ltsVersions (JS.dateUTC 2025 6 1) sampleIndex) ->
             In m (ltsVersions sampleNow sampleIndex)).
Proof.
  assert (H : (sampleNow <= JS.dateUTC 2025 6 1)%Z) by (vm_compute; discriminate).
  split; [exact H|].
  exact (proj2 (lts_versions_shrink_with_time sampleNow (JS.dateUTC 2025 6 1)
                  sampleIndex H)).
Defined.

(** X9. The result depends on the set of releases only: two release lists
    with the same entries, in any order and with any repetitions, give the
    same configuration. *)
Theorem lts_resolution_ignores_order (now : Z) (status status' : nat)
    (versions versions' : list NodeDistVersion) :
  (forall entry, In entry versions <-> In entry versions') ->
  ltsVersions now versions = ltsVersions now versions' /\
  getNodeLTSVersions now (JS.Responded true status (Some versions))
  = getNodeLTSVersions now (JS.Responded true status' (Some versions')).
Proof.
  intros Hsame.
  assert (E : ltsVersions now versions = ltsVersions now versions').
  { apply (StronglySorted_unique_strong (fun a b => b < a)%Z);
      [intros; lia | apply ltsVersions_sorted | apply ltsVersions_sorted |].
    apply NoDup_Permutation; [apply ltsVersions_NoDup | apply ltsVersions_NoDup |].
    intros m. rewrite !list_elem_of_In, !ltsVersions_In.
    split; intros [(e & He & H) H']; (split; [|exact H']); exists e;
      (split; [now apply Hsame | exact H]). }
  split; [exact E|].
  cbv [getNodeLTSVersions JS.jsonOf]. now rewrite E.
Qed.

Lemma lts_resolution_ignores_order_witness :
  (forall entry, In entry sampleIndex <-> In entry (rev sampleIndex ++ sampleIndex)%list) /\
  ltsVersions sampleNow sampleIndex
  = ltsVersions sampleNow (rev sampleIndex ++ sampleIndex)%list.
Proof.
  assert (H : forall entry,
             In entry sampleIndex <-> In entry (rev sampleIndex ++ sampleIndex)%list).
  { intros entry. rewrite in_app_iff, <- in_rev. tauto. }
  split; [exact H|].
  exact (proj1 (lts_resolution_ignores_order sampleNow 200 200 _ _ H)).
Defined.

End NodeInvariants.

(** ** The workflows and the scripts they run *)

Section WorkflowScripts.

Import Workflows.

(** X10. With the matrix 18, 20, 22, the latest LTS 20 and no fetched
    action version, the CI workflow generator produces, for every project
    configuration, the text of the earlier generator that had these values
    built in. *)
Theorem dynamic_workflow_reproduces_legacy (config : ProjectConfig)
    (nodeConfig : NodeFetcher.NodeVersionConfig) :
  NodeFetcher.ciMatrix nodeConfig = [18; 20; 22]%Z ->
  NodeFetcher.latestLTS nodeConfig = 20%Z ->
  generateCIWorkflow config nodeConfig ∅ = LegacyWorkflows.generateCIWorkflow config.
Proof.
  destruct nodeConfig as [minimum engines matrix latest]. simpl. intros -> ->.
  destruct config as [name lang fmt tr lint cs git ci cd cov dep].
  unfold generateCIWorkflow, LegacyWorkflows.generateCIWorkflow,
    ciSteps, LegacyWorkflows.ciSteps. simpl.
  destruct lang, tr, lint, ci, cov; reflexivity.
Qed.

Lemma dynamic_workflow_reproduces_legacy_witness :
  let nodeConfig :=
    {| NodeFetcher.minimum := 18; NodeFetcher.engines := ">=18.0.0";
       NodeFetcher.ciMatrix := [18; 20; 22]%Z; NodeFetcher.latestLTS := 20 |} in
  generateCIWorkflow codecovConfig nodeConfig ∅
  = LegacyWorkflows.generateCIWorkflow codecovConfig.
Proof.
  intros nodeConfig.
  exact (dynamic_workflow_reproduces_legacy codecovConfig nodeConfig eq_refl eq_refl).
Defined.

Lemma run_steps (config : ProjectConfig) (nodeConfig : NodeFetcher.NodeVersionConfig)
    (av : gmap string ActionsFetcher.ActionVersionResult) :
  (In typecheckStep (ciSteps config nodeConfig av) <-> language config = typescript) /\
  (In lintStep (ciSteps config nodeConfig av) <-> useLinting config = true) /\
  (In (testStep "npm test") (ciSteps config nodeConfig av)
   <-> testRunner config <> none /\ setupCI config = false) /\
  (In (testStep "npm run test:coverage") (ciSteps config nodeConfig av)
   <-> testRunner config <> none /\ setupCI config = true).
Proof.
  destruct config as [name lang fmt tr lint cs git ci cd cov dep].
  unfold ciSteps, JS.push. simpl.
  destruct lang, tr, lint, ci, cov; simpl; rewrite ?in_app_iff; simpl;
    intuition (try congruence; try discriminate).
Qed.

(** X11. The steps of the CI workflow that run [typecheck], [lint] and
    [npm test] are there exactly when [generateScripts] defines the script
    for the same configuration. *)
Theorem ci_steps_have_their_scripts (config : ProjectConfig)
    (nodeConfig : NodeFetcher.NodeVersionConfig)
    (av : gmap string ActionsFetcher.ActionVersionResult) :
  let scripts := Generators.generateScripts config in
  let steps := ciSteps config nodeConfig av in
  (In typecheckStep steps <-> is_Some (scripts !! "typecheck")) /\
  (In lintStep steps <-> is_Some (scripts !! "lint")) /\
  (In (testStep "npm test") steps -> is_Some (scripts !! "test")).
Proof.
  intros scripts steps. subst scripts steps.
  destruct (run_steps config nodeConfig av) as (Ht & Hl & Hn & _).
  rewrite Ht, Hl, Hn. clear Ht Hl Hn.
  destruct config as [name lang fmt tr lint cs git ci cd cov dep]; simpl.
  destruct lang, tr, lint; vm_compute;
    repeat split; try (intros [x Hx]; congruence); try (intros Hx; try discriminate; eauto);
    try (intros [? ?]; try congruence; eauto).
Qed.

(** X12. For no configuration does [generateScripts] define [test:coverage]
    or [test:all]; yet the CI workflow runs [npm run test:coverage] whenever
    a test runner and [setupCI] are configured, and the CD workflow always
    runs [npm run test:all]. *)
Theorem workflows_run_undefined_scripts (config : ProjectConfig)
    (nodeConfig : NodeFetcher.NodeVersionConfig)
    (av : gmap string ActionsFetcher.ActionVersionResult) :
  Generators.generateScripts config !! "test:coverage" = None /\
  Generators.generateScripts config !! "test:all" = None /\
  (testRunner config <> none -> setupCI config = true ->
   JS.includes "run: npm run test:coverage" (generateCIWorkflow config nodeConfig av) = true) /\
  JS.includes "run: npm run test:all" (generateCDWorkflow nodeConfig av) = true.
Proof.
  split; [|split; [|split]].
  - destruct config as [name lang fmt tr lint cs git ci cd cov dep].
    destruct lang, tr, lint; reflexivity.
  - destruct config as [name lang fmt tr lint cs git ci cd cov dep].
    destruct lang, tr, lint; reflexivity.
  - intros Ht Hci.
    apply includes_trans with (b := testStep "npm run test:coverage"); [reflexivity|].
    apply step_in_workflow. now apply run_steps.
  - unfold generateCDWorkflow. find_after "        ".
Qed.

Lemma workflows_run_undefined_scripts_witness :
  testRunner codecovConfig <> none /\ setupCI codecovConfig = true /\
  JS.includes "run: npm run test:coverage"
    (generateCIWorkflow codecovConfig NodeFetcher.FALLBACK_NODE_CONFIG ∅) = true.
Proof.
  assert (H1 : testRunner codecovConfig <> none) by discriminate.
  split; [exact H1|]. split; [reflexivity|].
  exact (proj1 (proj2 (proj2 (workflows_run_undefined_scripts codecovConfig
                                NodeFetcher.FALLBACK_NODE_CONFIG ∅))) H1 eq_refl).
Defined.

End WorkflowScripts.

(** ** More on the version fetcher *)

Section VersionOrder.

Import VersionFetcher.

Lemma compareAt_swap (aParts bParts : list JS.JSNum) (i : nat) (next next' : Z) :
  next' = (- next)%Z ->
  compareAt bParts aParts i next' = (- compareAt aParts bParts i next)%Z.
Proof.
  intros ->. unfold compareAt, JS.lt, JS.gt.
  destruct (aParts !! i) as [[|x]|], (bParts !! i) as [[|y]|]; try reflexivity.
  destruct (Z.ltb_spec y x), (Z.ltb_spec x y); try reflexivity; lia.
Qed.

Lemma compareAt_range (aParts bParts : list JS.JSNum) (i : nat) (next : Z) :
  (-1 <= next <= 1)%Z -> (-1 <= compareAt aParts bParts i next <= 1)%Z.
Proof.
  intros H. unfold compareAt.
  destruct (JS.gt _ _); [lia|]. destruct (JS.lt _ _); lia.
Qed.

Lemma compareAt_same (parts : list JS.JSNum) (i : nat) (next : Z) :
  compareAt parts parts i next = next.
Proof.
  unfold compareAt, JS.lt, JS.gt.
  destruct (parts !! i) as [[|x]|]; try reflexivity.
  now rewrite Z.ltb_irrefl.
Qed.

(** X13. On two versions that match [\d+\.\d+\.\d+] and have safe
    integers as numeric identifiers, [compareVersions] is the three-way
    comparison of major, then minor, then patch as numbers: it is -1 when
    the first is older, 0 exactly when the three numbers are the same,
    whatever the spelling, and 1 when the first is newer; swapping the
    arguments negates it. *)
Theorem compareVersions_three_way (a b : string) :
  semverTest a = true -> semverTest b = true ->
  safeVersion a -> safeVersion b ->
  exists ka kb,
    versionKey a = Some ka /\ versionKey b = Some kb /\
    (compareVersions a b = (-1)%Z <-> keyLe ka kb /\ ka <> kb) /\
    (compareVersions a b = 0%Z <-> ka = kb) /\
    (compareVersions a b = 1%Z <-> keyLe kb ka /\ ka <> kb) /\
    compareVersions b a = (- compareVersions a b)%Z.
Proof.
  intros [[[x y] z] Ha]%versionKey_semver [[[x' y'] z'] Hb]%versionKey_semver _ _.
  exists (x, y, z), (x', y', z').
  split; [exact Ha|]. split; [exact Hb|].
  assert (Hneq : (x, y, z) <> (x', y', z') <-> (x <> x' \/ y <> y' \/ z <> z')%Z).
  { split; [|intros H [= -> -> ->]; lia].
    intros H. destruct (Z.eq_dec x x') as [->|]; [|now left].
    destruct (Z.eq_dec y y') as [->|]; [|now right; left].
    destruct (Z.eq_dec z z') as [->|]; [congruence | now right; right]. }
  assert (Heq : (x, y, z) = (x', y', z') <-> (x = x' /\ y = y' /\ z = z')%Z).
  { split; [now intros [= -> -> ->] | now intros (-> & -> & ->)]. }
  rewrite Hneq, Heq.
  unfold compareVersions, keyLe.
  rewrite (versionKey_parts _ _ _ _ Ha), (versionKey_parts _ _ _ _ Hb).
  unfold compareAt, JS.lt, JS.gt. simpl.
  repeat match goal with
         | |- context [(?p <? ?q)%Z] => destruct (Z.ltb_spec p q)
         end; lia.
Qed.

Lemma compareVersions_three_way_witness :
  semverTest "1.10.0" = true /\ semverTest "1.9.0" = true /\
  safeVersion "1.10.0" /\ safeVersion "1.9.0" /\
  compareVersions "1.9.0" "1.10.0" = (- compareVersions "1.10.0" "1.9.0")%Z.
Proof.
  assert (Ha : safeVersion "1.10.0")
    by (intros a b c E; vm_compute in E; injection E as <- <- <-;
        vm_compute; repeat split; discriminate).
  assert (Hb : safeVersion "1.9.0")
    by (intros a b c E; vm_compute in E; injection E as <- <- <-;
        vm_compute; repeat split; discriminate).
  split; [reflexivity|]. split; [reflexivity|]. split; [exact Ha|]. split; [exact Hb|].
  destruct (compareVersions_three_way "1.10.0" "1.9.0" eq_refl eq_refl Ha Hb)
    as (ka & kb & _ & _ & _ & _ & _ & H).
  exact H.
Defined.

End VersionOrder.

(** ** Outcomes of the resolution *)

Section ResolutionOutcomes.

Import VersionFetcher.

Lemma caret_not_latest (v : string) : "^" ++ v <> "latest".
Proof. discriminate. Qed.

(** X14. The result of the resolution tells which tier produced it:
    [usedFallback] is absent exactly when the first query succeeded, and
    then the version is the caret and the fetched version and the second
    query has no influence; the version is [latest] exactly when both tiers
    failed. *)
Theorem resolution_outcomes (pkg : string) (now : Z)
    (latest full : JS.FetchOutcome NpmPackageData) :
  let result := getLatestVersionWithFallback pkg now latest full in
  (usedFallback result = None <-> is_Some (tryLatest pkg now latest)) /\
  (version result = "latest" <->
   tryLatest pkg now latest = None /\ tryStableFallback pkg now full = None) /\
  (is_Some (tryLatest pkg now latest) ->
   forall full', getLatestVersionWithFallback pkg now latest full' = result) /\
  (forall data v, JS.jsonOf latest = Some data -> data_version data = Some v ->
     version result = "^" ++ v /\ usedFallback result = None).
Proof.
  intros result. subst result. unfold getLatestVersionWithFallback.
  assert (Hprimary : forall res, tryLatest pkg now latest = Some res ->
            usedFallback res = None /\ exists v, version res = "^" ++ v).
  { unfold tryLatest. intros res.
    destruct (JS.jsonOf latest) as [data|]; [|discriminate]. cbn [mbind option_bind].
    destruct (data_version data) as [v|]; [|discriminate]. cbn [mbind option_bind].
    intros [= <-]. split; [reflexivity|]. now exists v. }
  assert (Hsecond : forall res, tryStableFallback pkg now full = Some res ->
            usedFallback res = Some true /\ exists v, version res = "^" ++ v).
  { intros res (data & v & _ & _ & Hv & Hu)%tryStableFallback_Some.
    split; [exact Hu|]. now exists v. }
  destruct (tryLatest pkg now latest) as [res|] eqn:E.
  - destruct (Hprimary res eq_refl) as [Hu (v & Hv)].
    split; [split; [eauto | intros _; exact Hu]|].
    split; [rewrite Hv; split; [intros H; now apply caret_not_latest in H
                               | intros [? _]; discriminate]|].
    split; [reflexivity|].
    intros data v' Hj Hd. revert E. unfold tryLatest. rewrite Hj. cbn [mbind option_bind].
    rewrite Hd. cbn [mbind option_bind]. now intros [= <-].
  - unfold getStableFallbackVersion.
    destruct (tryStableFallback pkg now full) as [res|] eqn:E2; cbv [default from_option id].
    + destruct (Hsecond res eq_refl) as [Hu (v & Hv)].
      split; [split; [rewrite Hu; discriminate | intros [? ?]; discriminate]|].
      split; [rewrite Hv; split; [intros H; now apply caret_not_latest in H
                                 | intros [_ ?]; discriminate]|].
      split; [intros [? ?]; discriminate|].
      intros data v' Hj Hd. revert E. unfold tryLatest. rewrite Hj. cbn [mbind option_bind].
      rewrite Hd. discriminate.
    + split; [split; [discriminate | intros [? ?]; discriminate]|].
      split; [split; [tauto | reflexivity]|].
      split; [intros [? ?]; discriminate|].
      intros data v' Hj Hd. revert E. unfold tryLatest. rewrite Hj. cbn [mbind option_bind].
      rewrite Hd. discriminate.
Qed.

Lemma resolution_outcomes_witness :
  is_Some (tryLatest "vitest" (JS.dateUTC 2025 1 15) (JS.Responded true 200 (Some sampleDocument))) /\
  forall full',
    getLatestVersionWithFallback "vitest" (JS.dateUTC 2025 1 15)
      (JS.Responded true 200 (Some sampleDocument)) full'
    = getLatestVersionWithFallback "vitest" (JS.dateUTC 2025 1 15)
        (JS.Responded true 200 (Some sampleDocument)) JS.TimedOut.
Proof.
  assert (H : is_Some (tryLatest "vitest" (JS.dateUTC 2025 1 15)
                         (JS.Responded true 200 (Some sampleDocument))))
    by (eexists; reflexivity).
  split; [exact H|].
  exact (proj1 (proj2 (proj2 (resolution_outcomes "vitest" (JS.dateUTC 2025 1 15)
                                (JS.Responded true 200 (Some sampleDocument))
                                JS.TimedOut))) H).
Defined.

(** *** Versions without a usable publish time *)

Lemma days_without_time (now : Z) (data : NpmPackageData) (v : string) :
  data_time data !! v = None -> daysOldOf now data v = JS.Num 0.
Proof.
  intros H. unfold daysOldOf, publishedAt. rewrite H. cbv [default from_option id JS.daysSince].
  now rewrite Z.sub_diag.
Qed.

Lemma not_old_without_time (now : Z) (data : NpmPackageData) (v : string) :
  data_time data !! v = None \/ data_time data !! v = Some JS.InvalidDate ->
  oldEnough now data v = false.
Proof.
  unfold oldEnough. intros [H|H].
  - now rewrite (days_without_time _ _ _ H).
  - unfold daysOldOf, publishedAt. now rewrite H.
Qed.

(** X15. A fetched version that has no entry in the document's [time]
    map counts as published now: its age is 0 days, so a version with minor
    component 0 always gets the new-major warning and one with minor
    component 1 the recent-release warning, whatever its real age. *)
Theorem missing_time_warns (pkg : string) (now : Z) (status : nat)
    (data : NpmPackageData) (v : string)
    (full : JS.FetchOutcome NpmPackageData) :
  data_version data = Some v ->
  data_time data !! v = None ->
  let result :=
    getLatestVersionWithFallback pkg now (JS.Responded true status (Some data)) full in
  let minor := partsOf v !! 1%nat in
  warning result = generateWarning pkg v (JS.Num 0) /\
  (JS.isNum minor 0 = true ->
   exists w, warning result = Some w /\
     JS.includes "(0 days old)" w = true /\
     JS.includes "New major version" w = true) /\
  (JS.isNum minor 1 = true ->
   exists w, warning result = Some w /\
     JS.includes "(0 days old)" w = true /\
     JS.includes "Recently released" w = true).
Proof.
  intros Hv Ht result minor. subst result.
  unfold getLatestVersionWithFallback, tryLatest. cbn [JS.jsonOf mbind option_bind].
  rewrite Hv. cbn [mbind option_bind warning]. rewrite (days_without_time _ _ _ Ht).
  split; [reflexivity|].
  unfold generateWarning. fold minor.
  assert (Hhead : JS.includes "(0 days old)" (warningHead pkg v (JS.Num 0)) = true).
  { unfold warningHead. apply includes_app_r, includes_app_r, includes_app_r,
      includes_app_r. apply includes_spec. exists " ", JS.nl. reflexivity. }
  split.
  - intros ->. eexists. split; [reflexivity|]. split.
    + now apply includes_app_l.
    + apply includes_app_r, includes_app_l. apply includes_spec.
      now exists "   ", " - may contain breaking changes.".
  - intros H1. destruct (JS.isNum minor 0) eqn:H0.
    { exfalso. unfold JS.isNum in *. destruct minor as [[|z]|]; try discriminate.
      apply Z.eqb_eq in H0, H1. lia. }
    rewrite H1. eexists. split; [reflexivity|]. split.
    + now apply includes_app_l.
    + apply includes_app_r. apply includes_spec. now exists "   ", " - may have early bugs.".
Qed.

Lemma missing_time_warns_witness :
  let data := {| data_version := Some "5.0.2"; data_time := ∅;
                 data_versions := [] |} in
  data_version data = Some "5.0.2" /\
  data_time data !! "5.0.2" = None /\
  exists w,
    warning (getLatestVersionWithFallback "eslint" 0
               (JS.Responded true 200 (Some data)) JS.TimedOut) = Some w /\
    JS.includes "(0 days old)" w = true /\
    JS.includes "New major version" w = true.
Proof.
  intros data. split; [reflexivity|]. split; [reflexivity|].
  exact (proj1 (proj2 (missing_time_warns "eslint" 0 200 data "5.0.2" JS.TimedOut
                         eq_refl eq_refl)) eq_refl).
Defined.

Lemma firstOldEnough_app (now : Z) (data : NpmPackageData) (pre vs : list string) :
  Forall (fun v => oldEnough now data v = false) pre ->
  firstOldEnough now data (pre ++ vs) = firstOldEnough now data vs.
Proof.
  induction 1 as [|v l Hv HF IH]; [reflexivity|].
  change ((v :: l) ++ vs)%list with (v :: (l ++ vs))%list.
  now rewrite firstOldEnough_cons, Hv.
Qed.

(** X16. In the stable fallback of a registry document a version without
    a publish time, or with one that is no date, is never taken as old
    enough, however new it is: the fallback passes over the newest stable
    versions that have no usable time and returns the first dated one after
    them when that one is at least 30 days old, with its age in the message;
    when no stable version has a usable time it returns the newest one with
    the message of the fallback that found no old version. *)
Theorem fallback_without_times (pkg : string) (now : Z) (status : nat)
    (data : NpmPackageData) (newest : string) (undated dated : list string) :
  Forall safeVersion (data_versions data) ->
  stableVersions data = ((newest :: undated) ++ dated)%list ->
  (forall v, In v (newest :: undated) ->
     data_time data !! v = None \/ data_time data !! v = Some JS.InvalidDate) ->
  let result :=
    getStableFallbackVersion pkg now (JS.Responded true status (Some data)) in
  match dated with
  | [] =>
      result = {| version := "^" ++ newest;
                  usedFallback := Some true;
                  warning := Some ("ℹ️  Using fallback: " ++ pkg ++ "@" ++ newest) |}
  | v :: _ =>
      forall t, data_time data !! v = Some (JS.DateAt t) ->
        (30 <= (now - t) / 86400000)%Z ->
        result = {| version := "^" ++ v;
                    usedFallback := Some true;
                    warning := Some ("ℹ️  Using stable fallback: " ++ pkg ++ "@" ++ v
                                     ++ " (" ++ JS.showZ ((now - t) / 86400000)
                                     ++ " days old)") |}
  end.
Proof.
  intros _ Hs Htimes result. subst result.
  assert (Hyoung : Forall (fun v => oldEnough now data v = false) (newest :: undated)).
  { apply List.Forall_forall. intros v Hv. now apply not_old_without_time, Htimes. }
  unfold getStableFallbackVersion, tryStableFallback. cbn [JS.jsonOf mbind option_bind].
  rewrite Hs, (firstOldEnough_app _ _ _ _ Hyoung).
  change ((newest :: undated) ++ dated)%list with (newest :: (undated ++ dated))%list.
  destruct dated as [|v rest]; [reflexivity|].
  intros t Ht H30. rewrite firstOldEnough_cons.
  assert (Hold : oldEnough now data v = true) by (apply oldEnough_iff; eauto).
  rewrite Hold, (oldEnough_days _ _ _ _ Ht). reflexivity.
Qed.

Lemma fallback_without_times_witness :
  let data := {| data_version := None;
                 data_time := {[ "1.0.0" := JS.DateAt (JS.dateUTC 2024 6 1) ]};
                 data_versions := ["1.0.0"; "1.2.0"] |} in
  Forall safeVersion (data_versions data) /\
  stableVersions data = ["1.2.0"; "1.0.0"] /\
  data_time data !! "1.2.0" = None /\
  version (getStableFallbackVersion "tsup" (JS.dateUTC 2025 1 15)
             (JS.Responded true 200 (Some data))) = "^1.0.0".
Proof.
  intros data.
  assert (H : Forall safeVersion (data_versions data)).
  { repeat (apply Forall_cons_2;
              [intros a b c E; vm_compute in E; injection E as <- <- <-;
               vm_compute; repeat split; discriminate|]).
    apply Forall_nil_2. }
  assert (Ht : forall v, In v ["1.2.0"] ->
                 data_time data !! v = None \/ data_time data !! v = Some JS.InvalidDate).
  { intros v [<-|[]]. left. reflexivity. }
  split; [exact H|]. split; [reflexivity|]. split; [reflexivity|].
  rewrite (fallback_without_times "tsup" (JS.dateUTC 2025 1 15) 200 data
             "1.2.0" [] ["1.0.0"] H eq_refl Ht (JS.dateUTC 2024 6 1) eq_refl);
    [reflexivity | vm_compute; discriminate].
Defined.

End ResolutionOutcomes.

(** ** Maps built from lists of entries *)

Section MapFacts.

Context {V : Type}.

Lemma newMap_from (entries : list (string * V)) (m : gmap string V) (k : string) :
  fold_left (fun (m : gmap string V) kv => <[kv.1 := kv.2]> m) entries m !! k
  = match fold_left (fun (m : gmap string V) kv => <[kv.1 := kv.2]> m)
            entries ∅ !! k with
    | Some v => Some v
    | None => m !! k
    end.
Proof.
  revert m. induction entries as [|[k' v'] entries IH]; intros m; simpl.
  - now rewrite lookup_empty.
  - rewrite IH, (IH (<[k' := v']> ∅)).
    destruct (fold_left _ entries ∅ !! k); [reflexivity|].
    rewrite !lookup_insert. case_decide; [reflexivity|]. now rewrite lookup_empty.
Qed.

(** A map built from the graph of a function over a list of keys. *)
Lemma newMap_graph (f : string -> V) (keys : list string) (k : string) :
  JS.newMap (map (fun key => (key, f key)) keys) !! k
  = if decide (k ∈ keys) then Some (f k) else None.
Proof.
  unfold JS.newMap. induction keys as [|x keys IH]; simpl.
  - rewrite lookup_empty. destruct (decide (k ∈ [])) as [H|]; [|reflexivity].
    now apply elem_of_nil in H.
  - rewrite newMap_from, IH.
    destruct (decide (k ∈ keys)) as [Hin|Hnot].
    + destruct (decide (k ∈ x :: keys)) as [|Hn]; [reflexivity|].
      exfalso. apply Hn. now right.
    + rewrite lookup_insert. case_decide as Hx.
      * subst x. destruct (decide (k ∈ k :: keys)) as [|Hn]; [reflexivity|].
        exfalso. apply Hn. now left.
      * rewrite lookup_empty.
        destruct (decide (k ∈ x :: keys)) as [[?|?]%elem_of_cons|];
          [congruence | tauto | reflexivity].
Qed.

End MapFacts.

Section FetchManyFacts.

Import VersionFetcher.

Variable now : Z.
Variable registry :
  string -> JS.FetchOutcome NpmPackageData * JS.FetchOutcome NpmPackageData.

Let resolve (name : string) : VersionResult :=
  getLatestVersionWithFallback name now (registry name).1 (registry name).2.

(** X17. [fetchLatestVersions] returns a map with an entry for each
    requested package and for nothing else; the entry of a package is the
    result of its own resolution, also when the name was requested twice or
    other packages failed, and the map has as many entries as distinct
    names. *)
Theorem fetched_versions_map (packageNames : list string) :
  let versions := fetchLatestVersions now registry packageNames in
  (forall name, In name packageNames -> versions !! name = Some (resolve name)) /\
  (forall name, ~ In name packageNames -> versions !! name = None) /\
  (NoDup packageNames -> size versions = length packageNames).
Proof.
  intros versions. subst versions. unfold fetchLatestVersions.
  assert (Hlookup : forall name,
            JS.newMap (map (fun name => (name, resolve name)) packageNames) !! name
            = if decide (name ∈ packageNames) then Some (resolve name) else None)
    by (intros name; apply newMap_graph).
  split; [|split].
  - intros name Hin. change (JS.newMap _ !! name) with
      (JS.newMap (map (fun name => (name, resolve name)) packageNames) !! name).
    rewrite Hlookup. apply list_elem_of_In in Hin.
    now destruct (decide (name ∈ packageNames)).
  - intros name Hnot. change (JS.newMap _ !! name) with
      (JS.newMap (map (fun name => (name, resolve name)) packageNames) !! name).
    rewrite Hlookup. rewrite <- list_elem_of_In in Hnot.
    now destruct (decide (name ∈ packageNames)).
  - intros Hnd.
    assert (E : JS.newMap (map (fun name => (name, resolve name)) packageNames)
                = list_to_map (map (fun name => (name, resolve name)) packageNames)).
    { apply map_eq. intros k. rewrite Hlookup.
      destruct (decide (k ∈ packageNames)) as [Hin|Hnot].
      - symmetry. apply elem_of_list_to_map_1.
        + rewrite <- list_fmap_compose. now rewrite list_fmap_id.
        + apply list_elem_of_fmap. now exists k.
      - symmetry. apply not_elem_of_list_to_map_1.
        now rewrite <- list_fmap_compose, list_fmap_id. }
    change (size (JS.newMap (map (fun name => (name, resolve name)) packageNames))
            = length packageNames).
    rewrite E, map_size_list_to_map; [now rewrite length_map|].
    rewrite <- list_fmap_compose. now rewrite list_fmap_id.
Qed.

End FetchManyFacts.

(** ** The parts of the manifest fit together *)

Section ManifestFacts.

Import Generators.

Lemma manifest_scripts (config : ProjectConfig) :
  scriptsOf (generatePackageJson config)
  = if useChangesets config
    then <["release" := "changeset publish"]> (generateScripts config)
    else generateScripts config.
Proof.
  destruct config as [pkg lang fmt tr lint cs git ci cd cov dep].
  destruct lang, fmt, cs; reflexivity.
Qed.

(** X18. Every script of the generated manifest starts a program that the
    manifest installs: its command begins with [npm], or with a program
    whose package is among the dev dependencies. *)
Theorem scripts_tools_are_installed (config : ProjectConfig) (name command : string) :
  scriptsOf (generatePackageJson config) !! name = Some command ->
  commandTool command = "npm" \/
  exists package,
    toolPackage (commandTool command) = Some package /\
    is_Some (generateDevDependencies config !! package).
Proof.
  rewrite manifest_scripts.
  destruct config as [pkg lang fmt tr lint cs git ci cd cov dep].
  destruct lang, tr, lint, cs;
    cbv beta iota zeta delta
      [generateScripts isTypescript language testRunner useLinting useChangesets];
    repeat (rewrite lookup_insert; case_decide;
            [intros [= <-];
             first [ left; reflexivity
                   | right; eexists; split; [reflexivity|]; eexists; reflexivity ]|]);
    rewrite lookup_empty; discriminate.
Qed.

Lemma scripts_tools_are_installed_witness :
  scriptsOf (generatePackageJson dualConfig) !! "typecheck" = Some "tsc --noEmit" /\
  exists package,
    toolPackage (commandTool "tsc --noEmit") = Some package /\
    is_Some (generateDevDependencies dualConfig !! package).
Proof.
  split; [reflexivity|].
  destruct (scripts_tools_are_installed dualConfig "typecheck" "tsc --noEmit" eq_refl)
    as [H|H]; [discriminate H | exact H].
Defined.

(** X19. The manifest publishes one directory, [dist] for TypeScript and
    [src] for JavaScript, and every file that [main], [module], [types] and
    [exports] name lies in it. *)
Theorem entry_points_are_published (config : ProjectConfig) :
  let pkg := generatePackageJson config in
  let dir := if isTypescript (language config) then "dist" else "src" in
  pkg !! "files" = Some (FStrings [dir]) /\
  entryPaths pkg <> [] /\
  Forall (fun path => JS.startsWith path ("./" ++ dir ++ "/") = true) (entryPaths pkg).
Proof.
  destruct config as [pkg lang fmt tr lint cs git ci cd cov dep].
  destruct lang, fmt, cs; simpl; (split; [reflexivity|]); vm_compute;
    (split; [discriminate|]); repeat constructor.
Qed.

(** X20. The module formats agree across the generated files: tsup builds
    the ESM format exactly when [exports] has an [import] condition and the
    CommonJS format exactly when it has a [require] condition, and
    tsconfig.json compiles to CommonJS modules exactly when the manifest's
    [type] is [commonjs]. *)
Theorem module_formats_agree (config : ProjectConfig) :
  language config = typescript ->
  exists conditions,
    exportConditions (generatePackageJson config) = Some conditions /\
    (JS.includes "'esm'" (generateTsupConfig config) = true
     <-> is_Some (conditions !! "import")) /\
    (JS.includes "'cjs'" (generateTsupConfig config) = true
     <-> is_Some (conditions !! "require")) /\
    (compilerOptions (generateTsConfig config) !! "module" = Some (TsString "CommonJS")
     <-> generatePackageJson config !! "type" = Some (FString "commonjs")).
Proof.
  destruct config as [pkg lang fmt tr lint cs git ci cd cov dep]; simpl. intros ->.
  destruct fmt, cs; eexists; (split; [reflexivity|]); vm_compute;
    repeat split; try (intros [x Hx]; discriminate Hx); try discriminate;
    try (intros _; eexists; reflexivity); try reflexivity.
Qed.

Lemma module_formats_agree_witness :
  language dualConfig = typescript /\
  JS.includes "'esm'" (generateTsupConfig dualConfig) = true /\
  JS.includes "'cjs'" (generateTsupConfig dualConfig) = true.
Proof.
  split; [reflexivity|].
  destruct (module_formats_agree dualConfig eq_refl) as (c & _ & _ & _ & _).
  split; reflexivity.
Defined.

(** X21. The ESLint configuration starts its [extends] list with
    [eslint:recommended] and ends it with [prettier], has a parser exactly
    for TypeScript, and with linting enabled every package it refers to is
    among the dev dependencies. *)
Theorem eslint_config_is_supported (config : ProjectConfig) :
  let eslint := generateEslintConfig config in
  let deps := generateDevDependencies config in
  head (extends eslint) = Some "eslint:recommended" /\
  last (extends eslint) = Some "prettier" /\
  (is_Some (parser eslint) <-> language config = typescript) /\
  (useLinting config = true ->
   is_Some (deps !! "eslint") /\
   is_Some (deps !! "eslint-config-prettier") /\
   (forall p, parser eslint = Some p -> is_Some (deps !! p)) /\
   (In "plugin:@typescript-eslint/recommended" (extends eslint) ->
    is_Some (deps !! "@typescript-eslint/eslint-plugin"))).
Proof.
  destruct config as [pkg lang fmt tr lint cs git ci cd cov dep]; simpl.
  destruct lang; (split; [reflexivity|]); (split; [reflexivity|]); split.
  - split; [reflexivity | intros _; eexists; reflexivity].
  - intros ->. destruct tr, cs; vm_compute;
      repeat split; try (eexists; reflexivity);
      try (intros p [= <-]; eexists; reflexivity).
  - split; [intros [x Hx]; discriminate Hx | discriminate].
  - intros ->. destruct tr, cs; vm_compute;
      repeat split; try (eexists; reflexivity); try discriminate;
      intuition discriminate.
Qed.

Lemma eslint_config_is_supported_witness :
  useLinting baseConfig = true /\
  is_Some (generateDevDependencies baseConfig !! "eslint-config-prettier").
Proof.
  split; [reflexivity|].
  exact (proj1 (proj2 (proj2 (proj2 (proj2 (eslint_config_is_supported baseConfig)))
                         eq_refl))).
Defined.

(** X22. [generatePackageJson] assembles its parts unchanged: every field
    of [generateEntryPoints] is in the manifest, the spread overriding none
    of [name] and [version]; the dev dependencies are those of
    [generateDevDependencies]; and the scripts are those of
    [generateScripts], plus [release] exactly when changesets are used,
    which is also exactly when [@changesets/cli] is a dev dependency. *)
Theorem manifest_assembles_its_parts (config : ProjectConfig) :
  let pkg := generatePackageJson config in
  (forall key value, generateEntryPoints config !! key = Some value ->
     pkg !! key = Some value) /\
  pkg !! "name" = Some (FString (packageName config)) /\
  pkg !! "version" = Some (FString "0.1.0") /\
  pkg !! "devDependencies" = Some (FStringMap (generateDevDependencies config)) /\
  (forall name, name <> "release" ->
     scriptsOf pkg !! name = generateScripts config !! name) /\
  (is_Some (scriptsOf pkg !! "release") <-> useChangesets config = true) /\
  (is_Some (generateDevDependencies config !! "@changesets/cli")
   <-> useChangesets config = true).
Proof.
  destruct config as [pkg lang fmt tr lint cs git ci cd cov dep].
  cbv [packageName].
  split; [|split; [|split; [|split; [|split; [|split]]]]].
  - intros key value. destruct lang, fmt, cs;
      cbv [generateEntryPoints generatePackageJson]; simpl;
      repeat (rewrite lookup_insert; case_decide;
              [intros [= <-]; subst key; reflexivity|]);
      rewrite lookup_empty; discriminate.
  - destruct lang, fmt, cs; reflexivity.
  - destruct lang, fmt, cs; reflexivity.
  - destruct lang, fmt, cs; reflexivity.
  - intros name Hname. rewrite manifest_scripts. cbv [useChangesets].
    destruct cs; [now rewrite lookup_insert_ne | reflexivity].
  - rewrite manifest_scripts. cbv [useChangesets]. destruct cs.
    + rewrite lookup_insert_eq. split; [reflexivity | eauto].
    + destruct lang, tr, lint; vm_compute;
        (split; [intros [x Hx]; congruence | discriminate]).
  - destruct lang, tr, lint, cs; vm_compute;
      (split; [intros [x Hx]; congruence | intros Hx; try discriminate; eauto]).
Qed.

End ManifestFacts.

(** ** Edges of the warning *)

Section WarningEdges.

Import VersionFetcher.

Lemma split_without_separator (sep : ascii) (s : string) :
  JS.mentions sep s = false -> JS.split sep s = [s].
Proof.
  induction s as [|c s IH]; simpl; [reflexivity|].
  intros [Hc Hs]%orb_false_iff. now rewrite Hc, (IH Hs).
Qed.

(** X23. There is no warning for a version without a second component
    (no dot), whatever its age, and none for any version whose publish time
    is no date, since its age is then NaN. *)
Theorem no_warning_without_minor_or_age (pkg version : string) :
  (JS.mentions "." version = false ->
   forall daysOld, generateWarning pkg version daysOld = None) /\
  generateWarning pkg version JS.NaN = None /\
  (forall now status data full,
     data_version data = Some version ->
     data_time data !! version = Some JS.InvalidDate ->
     warning (getLatestVersionWithFallback pkg now
                (JS.Responded true status (Some data)) full) = None).
Proof.
  assert (Hnan : generateWarning pkg version JS.NaN = None).
  { unfold generateWarning, JS.lt, JS.gt. now rewrite !andb_false_r. }
  split; [|split; [exact Hnan|]].
  - intros Hdot daysOld. unfold generateWarning, partsOf.
    now rewrite (split_without_separator _ _ Hdot).
  - intros now status data full Hv Ht.
    unfold getLatestVersionWithFallback, tryLatest. cbn [JS.jsonOf mbind option_bind].
    rewrite Hv. cbn [mbind option_bind warning].
    unfold daysOldOf, publishedAt. rewrite Ht. exact Hnan.
Qed.

Lemma no_warning_without_minor_or_age_witness :
  JS.mentions "." "7" = false /\
  generateWarning "prettier" "7" (JS.Num 2) = None.
Proof.
  split; [reflexivity|].
  exact (proj1 (no_warning_without_minor_or_age "prettier" "7") eq_refl (JS.Num 2)).
Defined.

(** X24. Every warning opens with the warning sign, the package at its
    version and the age in days, written [1 day old] for one day and
    [N days old] for any other age. *)
Theorem warning_head (pkg version : string) (daysOld : Z) (w : string) :
  generateWarning pkg version (JS.Num daysOld) = Some w ->
  JS.startsWith w
    ("⚠️  " ++ pkg ++ "@" ++ version ++ " (" ++ JS.showZ daysOld
     ++ (if (daysOld =? 1)%Z then " day old)" else " days old)")) = true.
Proof.
  assert (Hhead : forall tail,
    JS.startsWith (warningHead pkg version (JS.Num daysOld) ++ tail)
      ("⚠️  " ++ pkg ++ "@" ++ version ++ " (" ++ JS.showZ daysOld
       ++ (if (daysOld =? 1)%Z then " day old)" else " days old)")) = true).
  { intros tail. unfold JS.startsWith. apply prefix_spec.
    exists (JS.nl ++ tail). unfold warningHead, JS.isNum. cbn [JS.showNum].
    destruct (daysOld =? 1)%Z; rewrite !append_assoc; reflexivity. }
  unfold generateWarning.
  destruct (_ && _); [intros [= <-]; apply Hhead|].
  destruct (_ && _); [intros [= <-]; apply Hhead | discriminate].
Qed.

Lemma warning_head_witness :
  exists w, generateWarning "jest" "30.0.0" (JS.Num 1) = Some w /\
    JS.startsWith w "⚠️  jest@30.0.0 (1 day old)" = true.
Proof.
  eexists. split; [reflexivity|].
  exact (warning_head "jest" "30.0.0" 1 _ eq_refl).
Defined.

(** X25. The suggested downgrade is always the major number minus one:
    for a version that starts with [0.0.] and is less than 30 days old the
    warning suggests installing the package at [-1]. *)
Theorem downgrade_below_zero (pkg rest : string) (daysOld : Z) :
  (daysOld < 30)%Z ->
  exists w, generateWarning pkg ("0.0." ++ rest) (JS.Num daysOld) = Some w /\
    JS.includes ("downgrade: npm install " ++ pkg ++ "@-1") w = true.
Proof.
  intros Hlt. unfold generateWarning, partsOf.
  change ("0.0." ++ rest) with (String "0" (String "." (String "0" (String "." rest)))).
  cbn [JS.split Ascii.eqb Bool.eqb].
  cbn [map lookup list_lookup JS.Number JS.allDigits JS.isDigit JS.digitsValue].
  assert (E : JS.lt (Some (JS.Num daysOld)) (Some (JS.Num 30)) = true)
    by (unfold JS.lt, JS.gt; now apply Z.ltb_lt).
  simpl JS.isNum. rewrite E. cbn [andb].
  eexists. split; [reflexivity|].
  apply includes_app_r, includes_app_r, includes_app_r. apply includes_spec.
  exists "   If issues occur, ", EmptyString. rewrite append_empty_r. reflexivity.
Qed.

Lemma downgrade_below_zero_witness :
  (2 < 30)%Z /\
  exists w, generateWarning "tsup" "0.0.3-beta.1" (JS.Num 2) = Some w /\
    JS.includes "downgrade: npm install tsup@-1" w = true.
Proof.
  assert (H : (2 < 30)%Z) by lia.
  split; [exact H|].
  exact (downgrade_below_zero "tsup" "3-beta.1" 2 H).
Defined.

End WarningEdges.
